(** * UniShare: the public profile page [src/app/u/[username]/page.tsx]

    A shallow embedding of the server component [UserProfilePage] and of the
    part of the Supabase client it talks to, followed by the properties of
    the page that the specification states. *)

From Stdlib Require Import NArith ZArith String Ascii Lia.
From stdpp Require Import base list sorting strings.

Local Open Scope N_scope.

(** ** JavaScript strings

    A JavaScript string is a sequence of UTF-16 code units. *)

Abbreviation jsstring := (list N).

(** A source literal, written in ASCII, as a JavaScript string. *)
Definition lit (s : string) : jsstring :=
  map N_of_ascii (list_ascii_of_string s).

(** [WhiteSpace] and [LineTerminator] of ECMAScript: the code units that
    [String.prototype.trim] removes. *)
Definition isWhiteSpace (c : N) : bool :=
  (c =? 0x09) || (c =? 0x0A) || (c =? 0x0B) || (c =? 0x0C) || (c =? 0x0D)
  || (c =? 0x20) || (c =? 0xA0) || (c =? 0x1680)
  || ((0x2000 <=? c) && (c <=? 0x200A))
  || (c =? 0x2028) || (c =? 0x2029) || (c =? 0x202F) || (c =? 0x205F)
  || (c =? 0x3000) || (c =? 0xFEFF).

Fixpoint trimStart (s : jsstring) : jsstring :=
  match s with
  | [] => []
  | c :: s' => if isWhiteSpace c then trimStart s' else s
  end.

Fixpoint trimEnd (s : jsstring) : jsstring :=
  match s with
  | [] => []
  | c :: s' =>
      match trimEnd s' with
      | [] => if isWhiteSpace c then [] else [c]
      | t => c :: t
      end
  end.

(** [s.trim()] *)
Definition trim (s : jsstring) : jsstring := trimEnd (trimStart s).

(** [s.startsWith(prefix)] *)
Fixpoint startsWith (s prefix : jsstring) {struct prefix} : bool :=
  match prefix, s with
  | [], _ => true
  | _ :: _, [] => false
  | p :: prefix', c :: s' => (c =? p) && startsWith s' prefix'
  end.

(** [s.substring(start)] *)
Definition substring_from (start : nat) (s : jsstring) : jsstring :=
  drop start s.

(** [s.substring(start, end)]; JavaScript swaps the two indices when
    [start > end] and clamps both to the length. *)
Definition substring (start end_ : nat) (s : jsstring) : jsstring :=
  take (Nat.max start end_ - Nat.min start end_) (drop (Nat.min start end_) s).

(** ** Step 1 of the page: the lookup key (page.tsx, lines 28-30) *)

Definition cleanUsername (username : jsstring) : jsstring :=
  if startsWith username (lit "@")
  then trim (substring_from 1 username)
  else trim username.


(** Case mapping restricted to the ASCII letters, used to instantiate the
    two case mappings the development is parametric in. *)
Definition ascii_lower (c : N) : N :=
  if (0x41 <=? c) && (c <=? 0x5A) then c + 0x20 else c.

Definition ascii_toUpperCase (s : jsstring) : jsstring :=
  map (fun c => if (0x61 <=? c) && (c <=? 0x7A) then c - 0x20 else c) s.

(** ** Data model: the rows the page reads

    The columns are those the page and its queries name; a nullable text
    column is an [option]. *)

Module UserProfile.
Record row : Type := {
  id : jsstring;
  username : option jsstring;
  full_name : option jsstring;
  avatar_url : option jsstring;
  university : option jsstring;
  major : option jsstring;
  bio : option jsstring
}.
End UserProfile.

Module Resource.
Record row : Type := {
  id : jsstring;
  author_id : jsstring;
  is_approved : bool;
  created_at : Z
}.
End Resource.

Module StudyGroup.
Record row : Type := {
  id : jsstring;
  created_by : jsstring;
  is_private : bool;
  created_at : Z
}.
End StudyGroup.

Inductive Table : Type := user_profiles | resources | study_groups.

Definition Row (t : Table) : Type :=
  match t with
  | user_profiles => UserProfile.row
  | resources => Resource.row
  | study_groups => StudyGroup.row
  end.

(** The value stored in one column of one row. *)
Inductive Cell : Type :=
  | CNull
  | CBool (b : bool)
  | CTime (t : Z)
  | CText (s : jsstring).

Definition nullable (o : option jsstring) : Cell :=
  match o with Some s => CText s | None => CNull end.

Definition columns (t : Table) : list string :=
  match t with
  | user_profiles =>
      ["id"; "username"; "full_name"; "avatar_url"; "university"; "major"; "bio"]
  | resources => ["id"; "author_id"; "is_approved"; "created_at"]
  | study_groups => ["id"; "created_by"; "is_private"; "created_at"]
  end.

Definition cell (t : Table) : Row t -> string -> Cell :=
  match t return Row t -> string -> Cell with
  | user_profiles => fun r c =>
      if String.eqb c "id" then CText (UserProfile.id r)
      else if String.eqb c "username" then nullable (UserProfile.username r)
      else if String.eqb c "full_name" then nullable (UserProfile.full_name r)
      else if String.eqb c "avatar_url" then nullable (UserProfile.avatar_url r)
      else if String.eqb c "university" then nullable (UserProfile.university r)
      else if String.eqb c "major" then nullable (UserProfile.major r)
      else if String.eqb c "bio" then nullable (UserProfile.bio r)
      else CNull
  | resources => fun r c =>
      if String.eqb c "id" then CText (Resource.id r)
      else if String.eqb c "author_id" then CText (Resource.author_id r)
      else if String.eqb c "is_approved" then CBool (Resource.is_approved r)
      else if String.eqb c "created_at" then CTime (Resource.created_at r)
      else CNull
  | study_groups => fun r c =>
      if String.eqb c "id" then CText (StudyGroup.id r)
      else if String.eqb c "created_by" then CText (StudyGroup.created_by r)
      else if String.eqb c "is_private" then CBool (StudyGroup.is_private r)
      else if String.eqb c "created_at" then CTime (StudyGroup.created_at r)
      else CNull
  end.

(** ** The query builder of the Supabase client

    A query is the request the builder chain describes: [from(table)], one
    verb, then filters and modifiers in the order they are chained. *)

Inductive Value : Type :=
  | VText (s : jsstring)
  | VBool (b : bool).

Inductive Filter : Type :=
  | Eq (column : string) (value : Value)
  | Ilike (column : string) (pattern : jsstring).

Inductive Verb : Type :=
  | Select (cols : string)
  | Insert (values : list (list (string * Value)))
  | Upsert (values : list (list (string * Value)))
  | Update (values : list (string * Value))
  | Delete.

Record Query : Type := {
  q_table : Table;
  q_verb : Verb;
  q_filters : list Filter;
  q_order : option (string * bool);
  q_limit : option nat
}.

Module Builder.

Definition from (t : Table) : Table := t.

Definition select (cols : string) (t : Table) : Query :=
  {| q_table := t; q_verb := Select cols; q_filters := [];
     q_order := None; q_limit := None |}.

Definition add_filter (f : Filter) (q : Query) : Query :=
  {| q_table := q_table q; q_verb := q_verb q;
     q_filters := q_filters q ++ [f];
     q_order := q_order q; q_limit := q_limit q |}.

Definition eq (column : string) (value : Value) : Query -> Query :=
  add_filter (Eq column value).

Definition ilike (column : string) (pattern : jsstring) : Query -> Query :=
  add_filter (Ilike column pattern).

(** [.order(column, { ascending })] *)
Definition order (column : string) (ascending : bool) (q : Query) : Query :=
  {| q_table := q_table q; q_verb := q_verb q; q_filters := q_filters q;
     q_order := Some (column, ascending); q_limit := q_limit q |}.

Definition limit (count : nat) (q : Query) : Query :=
  {| q_table := q_table q; q_verb := q_verb q; q_filters := q_filters q;
     q_order := q_order q; q_limit := Some count |}.

End Builder.

Notation "q |> f" := (f q) (at level 45, left associativity, only parsing).

Definition is_read (q : Query) : bool :=
  match q_verb q with Select _ => true | _ => false end.

(** ** Responses of the client *)

Record PostgrestError : Type := { code : string; message : string }.

(** [PostgrestSingleResponse<T>]: a success carries the data and a null
    error, a failure carries the error and null data. *)
Inductive PostgrestResponse (T : Type) : Type :=
  | Success (d : T)
  | Failure (e : PostgrestError).
Arguments Success {T} d.
Arguments Failure {T} e.

Record Session : Type := { access_token : jsstring }.

Record AuthError : Type := { auth_message : string }.

(** The result of [auth.getSession()]: [{ data: { session }, error }]. *)
Record AuthResponse : Type := {
  data_session : option Session;
  auth_error : option AuthError
}.

(** A JavaScript value that may be [undefined] or [null]. *)
Inductive Js (A : Type) : Type :=
  | undefined
  | null
  | val (a : A).
Arguments undefined {A}.
Arguments null {A}.
Arguments val {A} a.

(** The [error] property of a response. *)
Definition error {T} (r : PostgrestResponse T) : Js PostgrestError :=
  match r with Success _ => null | Failure e => val e end.

(** The [data] property of the response of a query awaited as a list. *)
Definition data {A} (r : PostgrestResponse (list A)) : Js (list A) :=
  match r with Success l => val l | Failure _ => null end.

(** The [data] property of the response of [.maybeSingle()]. *)
Definition data_single {A} (r : PostgrestResponse (option A)) : Js A :=
  match r with Success (Some a) => val a | _ => null end.

(** A destructuring default, [{ data: x = d }]: it replaces [undefined]
    only. *)
Definition default {A} (d : A) (x : Js A) : Js A :=
  match x with undefined => val d | _ => x end.

(** Truthiness of an object reference. *)
Definition truthy {A} (x : Js A) : bool :=
  match x with val _ => true | _ => false end.

(** Truthiness of a text column: [null] and the empty string are falsy. *)
Definition truthy_text (x : option jsstring) : bool :=
  match x with Some (_ :: _) => true | _ => false end.

(** [a || b] on text columns. *)
Definition or_else (a b : option jsstring) : option jsstring :=
  if truthy_text a then a else b.

(** The text React renders for a string-or-null child. *)
Definition text_of (x : option jsstring) : jsstring :=
  match x with Some s => s | None => [] end.

(** ** The page as a program over its collaborators

    The component awaits the auth provider and the query client, and it may
    leave through [redirect], which throws. *)

(** A request awaited by the page, indexed by the type of its answer. *)
Inductive Request : Type -> Type :=
  | auth_getSession : Request AuthResponse
  | maybeSingle (q : Query) :
      Request (PostgrestResponse (option (Row (q_table q))))
  | rows (q : Query) :
      Request (PostgrestResponse (list (Row (q_table q)))).

Inductive Prog (A : Type) : Type :=
  | Ret (a : A)
  | Throw (path : jsstring)
  | Await {X : Type} (e : Request X) (k : X -> Prog A).
Arguments Ret {A} a.
Arguments Throw {A} path.
Arguments Await {A X} e k.

Fixpoint bind {A B} (p : Prog A) (f : A -> Prog B) : Prog B :=
  match p with
  | Ret a => f a
  | Throw path => Throw path
  | Await e k => Await e (fun x => bind (k x) f)
  end.

Definition await {X} (e : Request X) : Prog X := Await e Ret.

(** [redirect(path)] of next/navigation never returns. *)
Definition redirect {A} (path : jsstring) : Prog A := Throw path.

Notation "x <- p ;; k" := (bind p (fun x => k))
  (at level 100, p at next level, right associativity).
Notation "p ;; k" := (bind p (fun _ => k))
  (at level 100, right associativity).

(** What a run of the page produces. *)
Inductive Outcome (A : Type) : Type :=
  | Returned (a : A)
  | Redirected (path : jsstring).
Arguments Returned {A} a.
Arguments Redirected {A} path.

(** The record of one request, as the collaborator sees it. *)
Inductive Call : Type :=
  | CallGetSession
  | CallMaybeSingle (q : Query)
  | CallRows (q : Query).

Definition call_of {X} (e : Request X) : Call :=
  match e with
  | auth_getSession => CallGetSession
  | maybeSingle q => CallMaybeSingle q
  | rows q => CallRows q
  end.

Definition is_query (c : Call) : bool :=
  match c with CallGetSession => false | _ => true end.

Definition call_reads (c : Call) : bool :=
  match c with
  | CallGetSession => true
  | CallMaybeSingle q | CallRows q => is_read q
  end.

(** A collaborator answering requests from a state of type [W]. *)
Definition Backend (W : Type) : Type := forall X, Request X -> W -> X * W.

Record Run (W A : Type) : Type := {
  outcome : Outcome A;
  final : W;
  calls : list Call
}.
Arguments outcome {W A} r.
Arguments final {W A} r.
Arguments calls {W A} r.

Fixpoint run {W A} (h : Backend W) (p : Prog A) (w : W) : Run W A :=
  match p with
  | Ret a => {| outcome := Returned a; final := w; calls := [] |}
  | Throw path => {| outcome := Redirected path; final := w; calls := [] |}
  | Await e k =>
      let '(x, w') := h _ e w in
      let r := run h (k x) w' in
      {| outcome := outcome r; final := final r;
         calls := call_of e :: calls r |}
  end.

(** A collaborator without state: fixed answers. *)
Definition Oracle : Type := forall X, Request X -> X.

Definition answering (o : Oracle) : Backend unit := fun X e w => (o X e, w).

Definition ask {A} (o : Oracle) (p : Prog A) : Run unit A :=
  run (answering o) p tt.

(** ** The rendered tree *)

Record Header : Type := {
  avatar_src : option jsstring;
  avatar_alt : option jsstring;
  avatar_fallback : jsstring;
  heading : option jsstring;
  handle : jsstring;
  university_line : option jsstring;
  major_line : option jsstring;
  bio_line : option jsstring
}.

(** A card of a tab: [<ResourceCard key=.. resource=.. />] or
    [<StudyGroupCard key=.. group=.. />]. *)
Record Card (A : Type) : Type := { key : jsstring; item : A }.
Arguments key {A} c.
Arguments item {A} c.

Inductive TabContent (A : Type) : Type :=
  | CardGrid (cards : list (Card A))
  | EmptyState (message : string).
Arguments CardGrid {A} cards.
Arguments EmptyState {A} message.

Definition shown {A} (c : TabContent A) : list A :=
  match c with
  | CardGrid cards => map item cards
  | EmptyState _ => []
  end.

Inductive Element : Type :=
  | UserNotFound
  | ProfileView (header : Header)
      (resourcesTab : TabContent Resource.row)
      (studyGroupsTab : TabContent StudyGroup.row).

(** The route parameters of [/u/[username]]. *)
Record Params : Type := { username : jsstring }.

(** ** The data store behind the client *)

Record Database : Type := {
  tbl_user_profiles : list UserProfile.row;
  tbl_resources : list Resource.row;
  tbl_study_groups : list StudyGroup.row
}.

Definition table (db : Database) (t : Table) : list (Row t) :=
  match t return list (Row t) with
  | user_profiles => tbl_user_profiles db
  | resources => tbl_resources db
  | study_groups => tbl_study_groups db
  end.

(** The state of the collaborators during one request: the stored rows,
    the visitor's session, and which queries fail in transit. *)
Record World : Type := {
  database : Database;
  session : option Session;
  outage : Query -> option PostgrestError
}.

Definition undefined_column : PostgrestError :=
  {| code := "42703"; message := "column does not exist" |}.

Definition multiple_rows : PostgrestError :=
  {| code := "PGRST116";
     message := "JSON object requested, multiple (or no) rows returned" |}.

(** [.maybeSingle()]: no row is null data, one row is that row, more rows
    are an error. *)
Definition maybe_single {A} (r : PostgrestResponse (list A))
  : PostgrestResponse (option A) :=
  match r with
  | Failure e => Failure e
  | Success [] => Success None
  | Success [a] => Success (Some a)
  | Success _ => Failure multiple_rows
  end.

Fixpoint str_le (a b : jsstring) : bool :=
  match a, b with
  | [], _ => true
  | _ :: _, [] => false
  | x :: a', y :: b' => (x <? y) || ((x =? y) && str_le a' b')
  end.

(** The order of the values of a column; null sorts as the largest value,
    so it comes first in a descending order. *)
Definition cell_le (a b : Cell) : bool :=
  match a, b with
  | _, CNull => true
  | CNull, _ => false
  | CBool x, CBool y => implb x y
  | CBool _, _ => true
  | _, CBool _ => false
  | CTime x, CTime y => (x <=? y)%Z
  | CTime _, _ => true
  | _, CTime _ => false
  | CText x, CText y => str_le x y
  end.

Definition cell_eq (c : Cell) (v : Value) : bool :=
  match c, v with
  | CText s, VText s' => bool_decide (s = s')
  | CBool b, VBool b' => Bool.eqb b b'
  | _, _ => false
  end.

Definition filter_column (f : Filter) : string :=
  match f with Eq c _ | Ilike c _ => c end.

Definition referenced (q : Query) : list string :=
  map filter_column (q_filters q)
  ++ match q_order q with Some (c, _) => [c] | None => [] end.

Definition known (t : Table) (c : string) : bool :=
  existsb (String.eqb c) (columns t).

(** The pattern characters of ILIKE as the client sends it: [%] and its
    alias [*] stand for any sequence, [_] for any one character, and a
    backslash escapes the character after it. *)
Definition is_any_sequence (c : N) : bool := (c =? 0x25) || (c =? 0x2A).
Definition is_any_one (c : N) : bool := c =? 0x5F.
Definition is_escape (c : N) : bool := c =? 0x5C.

Definition is_pattern_char (c : N) : bool :=
  is_any_sequence c || is_any_one c || is_escape c.

Definition plain (pattern : jsstring) : bool :=
  forallb (fun c => negb (is_pattern_char c)) pattern.

Section Page.

(** [String.prototype.toUpperCase], whose Unicode tables are not part of the
    repository. *)
Variable toUpperCase : jsstring -> jsstring.

(** The lower-casing of the collation of the database, per code unit. *)
Variable lower : N -> N.

(** What a write request would do to the stored rows. *)
Variable apply_write : Query -> Database -> Database.

Import Builder.

(** [text ILIKE pattern]. A pattern that ends in a lone escape matches
    nothing. *)
Fixpoint ilike_match (pattern : jsstring) : jsstring -> bool :=
  match pattern with
  | [] => fun s => match s with [] => true | _ :: _ => false end
  | c :: pattern' =>
      if is_any_sequence c then
        fix any (s : jsstring) : bool :=
          ilike_match pattern' s
          || match s with [] => false | _ :: s' => any s' end
      else if is_any_one c then
        fun s => match s with [] => false | _ :: s' => ilike_match pattern' s' end
      else if is_escape c then
        match pattern' with
        | [] => fun _ => false
        | e :: pattern'' =>
            fun s =>
              match s with
              | [] => false
              | x :: s' => (lower e =? lower x) && ilike_match pattern'' s'
              end
        end
      else
        fun s =>
          match s with
          | [] => false
          | x :: s' => (lower c =? lower x) && ilike_match pattern' s'
          end
  end.

Definition matches (t : Table) (r : Row t) (f : Filter) : bool :=
  match f with
  | Eq c v => cell_eq (cell t r c) v
  | Ilike c p =>
      match cell t r c with CText s => ilike_match p s | _ => false end
  end.

Definition ordering (t : Table) (c : string) (ascending : bool)
  : relation (Row t) :=
  fun x y =>
    Is_true (if ascending then cell_le (cell t x c) (cell t y c)
             else cell_le (cell t y c) (cell t x c)).

(** The rows a [select] returns: the rows of the table that pass every
    filter, in the requested order, cut at the limit. *)
Definition select_rows (db : Database) (q : Query) : list (Row (q_table q)) :=
  let t := q_table q in
  let matching :=
    filter (fun r => Is_true (forallb (matches t r) (q_filters q))) (table db t) in
  let ordered :=
    match q_order q with
    | Some (c, ascending) => merge_sort (ordering t c ascending) matching
    | None => matching
    end in
  match q_limit q with
  | Some n => take n ordered
  | None => ordered
  end.

Definition answer_rows (w : World) (q : Query)
  : PostgrestResponse (list (Row (q_table q))) * World :=
  match outage w q with
  | Some e => (Failure e, w)
  | None =>
      match q_verb q with
      | Select _ =>
          if forallb (known (q_table q)) (referenced q)
          then (Success (select_rows (database w) q), w)
          else (Failure undefined_column, w)
      | _ =>
          (Success [],
           {| database := apply_write q (database w);
              session := session w; outage := outage w |})
      end
  end.

(** The Supabase client of the page, answering from a [World]. *)
Definition supabase : Backend World :=
  fun X e =>
    match e in Request X return World -> X * World with
    | auth_getSession =>
        fun w => ({| data_session := session w; auth_error := None |}, w)
    | maybeSingle q =>
        fun w => let '(r, w') := answer_rows w q in (maybe_single r, w')
    | rows q => fun w => answer_rows w q
    end.

(** ** The component (page.tsx, lines 9-179) *)

(** The header block, lines 83-119. *)
Definition ProfileHeader (finalProfileData : UserProfile.row) : Header :=
  let full_name := UserProfile.full_name finalProfileData in
  let username := UserProfile.username finalProfileData in
  {| avatar_src := or_else (UserProfile.avatar_url finalProfileData) None;
     avatar_alt := or_else full_name username;
     avatar_fallback :=
       toUpperCase
         (substring 0 2 (text_of (or_else (or_else full_name username) (Some []))));
     heading := or_else full_name username;
     handle := lit "@" ++ text_of username;
     university_line :=
       if truthy_text (UserProfile.university finalProfileData)
       then UserProfile.university finalProfileData else None;
     major_line :=
       if truthy_text (UserProfile.major finalProfileData)
       then UserProfile.major finalProfileData else None;
     bio_line :=
       if truthy_text (UserProfile.bio finalProfileData)
       then UserProfile.bio finalProfileData else None |}.

(** One tab, lines 130-144 and 154-168:
    [xs && xs.length > 0 ? cards : empty state]. *)
Definition tab {A} (key_of : A -> jsstring) (xs : Js (list A))
    (empty : string) : TabContent A :=
  match xs with
  | val l =>
      if (0 <? length l)%nat
      then CardGrid (map (fun x => {| key := key_of x; item := x |}) l)
      else EmptyState empty
  | _ => EmptyState empty
  end.

Definition UserProfilePage (params : Params) : Prog Element :=
  auth <- await auth_getSession ;;
  let session := data_session auth in
  (if session is Some _
   then redirect (lit "/dashboard/public-profile/" ++ username params)
   else Ret tt) ;;
  let cleanUsername := cleanUsername (username params) in
  exact <- await (maybeSingle
    (from user_profiles |> select "*"
       |> eq "username" (VText cleanUsername))) ;;
  let profileData := data_single exact in
  let exactMatchError := error exact in
  finalProfileData <-
    (if negb (truthy profileData) then
       fallback <- await (maybeSingle
         (from user_profiles |> select "*"
            |> ilike "username" cleanUsername)) ;;
       let caseInsensitiveData := data_single fallback in
       Ret caseInsensitiveData
     else Ret profileData) ;;
  match finalProfileData with
  | val finalProfileData =>
      fetched <- await (rows
        (from resources |> select "*"
           |> eq "author_id" (VText (UserProfile.id finalProfileData))
           |> eq "is_approved" (VBool true)
           |> order "created_at" false
           |> limit 3)) ;;
      let resources := default [] (data fetched) in
      let resourcesError := error fetched in
      fetched' <- await (rows
        (from study_groups |> select "*"
           |> eq "created_by" (VText (UserProfile.id finalProfileData))
           |> eq "is_private" (VBool false)
           |> order "created_at" false
           |> limit 3)) ;;
      let studyGroups := default [] (data fetched') in
      let studyGroupsError := error fetched' in
      Ret (ProfileView (ProfileHeader finalProfileData)
             (tab Resource.id resources "No public resources available")
             (tab StudyGroup.id studyGroups "No public study groups available"))
  | _ => Ret UserNotFound
  end.

(** The four queries of the page, named for the statements below. *)
Definition exactLookup (key : jsstring) : Query :=
  from user_profiles |> select "*" |> eq "username" (VText key).

Definition fallbackLookup (key : jsstring) : Query :=
  from user_profiles |> select "*" |> ilike "username" key.

Definition resourcesQuery (id : jsstring) : Query :=
  from resources |> select "*"
    |> eq "author_id" (VText id) |> eq "is_approved" (VBool true)
    |> order "created_at" false |> limit 3.

Definition studyGroupsQuery (id : jsstring) : Query :=
  from study_groups |> select "*"
    |> eq "created_by" (VText id) |> eq "is_private" (VBool false)
    |> order "created_at" false |> limit 3.

(** The view of a resolved profile, given the answers to its two fetches. *)
Definition profileView (p : UserProfile.row)
    (fetched : PostgrestResponse (list Resource.row))
    (fetched' : PostgrestResponse (list StudyGroup.row)) : Element :=
  ProfileView (ProfileHeader p)
    (tab Resource.id (default [] (data fetched)) "No public resources available")
    (tab StudyGroup.id (default [] (data fetched'))
       "No public study groups available").

(** The row the two lookups settle on, [finalProfileData] of line 52, read
    off the answers of a collaborator. *)
Definition resolved (o : Oracle) (key : jsstring) : Js UserProfile.row :=
  let profileData := data_single (o _ (maybeSingle (exactLookup key))) in
  if truthy profileData then profileData
  else data_single (o _ (maybeSingle (fallbackLookup key))).

(** The answers the client gives in a world, as an oracle. *)
Definition snapshot (w : World) : Oracle := fun X e => (supabase X e w).1.

(** The page served from a world. *)
Definition serve (w : World) (params : Params) : Run World Element :=
  run supabase (UserProfilePage params) w.

(** A failed query answered instead by a success without data. *)
Definition mend {X} (e : Request X) : X -> X :=
  match e in Request X return X -> X with
  | auth_getSession => fun a => a
  | maybeSingle q =>
      fun r => match r with Failure _ => Success None | _ => r end
  | rows q =>
      fun r => match r with Failure _ => Success [] | _ => r end
  end.

(** The oracle [o] with the failures of the selected queries mended. *)
Definition mended (sel : Call -> bool) (o : Oracle) : Oracle :=
  fun X e => if sel (call_of e) then mend e (o X e) else o X e.

(** Programs all of whose requests are reads, whatever the answers. *)
Inductive ReadOnly {A} : Prog A -> Prop :=
  | ReadOnly_Ret a : ReadOnly (Ret a)
  | ReadOnly_Throw path : ReadOnly (Throw path)
  | ReadOnly_Await X (e : Request X) k :
      call_reads (call_of e) = true ->
      (forall x, ReadOnly (k x)) ->
      ReadOnly (Await e k).

(** Case-insensitive equality of a stored username and a key. *)
Definition same_ignoring_case (key : jsstring) (p : UserProfile.row) : bool :=
  match UserProfile.username p with
  | Some s => bool_decide (map lower s = map lower key)
  | None => false
  end.

Definition same_exactly (key : jsstring) (p : UserProfile.row) : bool :=
  match UserProfile.username p with
  | Some s => bool_decide (s = key)
  | None => false
  end.

(** ** Sample data *)

Definition profile (id username : string) (full_name : option jsstring)
  : UserProfile.row :=
  {| UserProfile.id := lit id;
     UserProfile.username := Some (lit username);
     UserProfile.full_name := full_name;
     UserProfile.avatar_url := None;
     UserProfile.university := Some (lit "MIT");
     UserProfile.major := Some [];
     UserProfile.bio := None |}.

Definition alice : UserProfile.row := profile "u1" "alice" (Some (lit "Alice A")).
Definition janeDoe : UserProfile.row := profile "u2" "JaneDoe" None.
Definition janeDoe_upper : UserProfile.row := profile "u3" "JANEDOE" None.

Definition resource (id author : string) (approved : bool) (at_ : Z)
  : Resource.row :=
  {| Resource.id := lit id; Resource.author_id := lit author;
     Resource.is_approved := approved; Resource.created_at := at_ |}.

Definition group (id creator : string) (private : bool) (at_ : Z)
  : StudyGroup.row :=
  {| StudyGroup.id := lit id; StudyGroup.created_by := lit creator;
     StudyGroup.is_private := private; StudyGroup.created_at := at_ |}.

Definition sample_resources : list Resource.row :=
  [ resource "r1" "u1" true 10; resource "r2" "u1" true 40;
    resource "r3" "u1" false 50; resource "r4" "u2" true 60;
    resource "r5" "u1" true 20; resource "r6" "u1" true 30 ].

Definition sample_groups : list StudyGroup.row :=
  [ group "g1" "u1" false 5; group "g2" "u1" true 9;
    group "g3" "u2" false 7; group "g4" "u1" false 8 ].

Definition no_outage : Query -> option PostgrestError := fun _ => None.

Definition timeout_error : PostgrestError :=
  {| code := "57014"; message := "canceling statement due to statement timeout" |}.

Definition campus : Database :=
  {| tbl_user_profiles := [alice; janeDoe];
     tbl_resources := sample_resources;
     tbl_study_groups := sample_groups |}.

(** A store in which two usernames differ by case only. *)
Definition two_janes : Database :=
  {| tbl_user_profiles := [alice; janeDoe; janeDoe_upper];
     tbl_resources := sample_resources;
     tbl_study_groups := sample_groups |}.

Definition visitor (db : Database) : World :=
  {| database := db; session := None; outage := no_outage |}.

Definition member (db : Database) : World :=
  {| database := db;
     session := Some {| access_token := lit "token" |};
     outage := no_outage |}.

(** A write that would empty the store. *)
Definition wipe : Query -> Database -> Database :=
  fun _ _ =>
    {| tbl_user_profiles := []; tbl_resources := []; tbl_study_groups := [] |}.

(** A stored username matched by the key read as an ILIKE pattern. *)
Definition same_as_pattern (key : jsstring) (p : UserProfile.row) : bool :=
  match UserProfile.username p with
  | Some s => ilike_match key s
  | None => false
  end.

(** Programs that never leave through [redirect], whatever the answers. *)
Inductive Returns {A} : Prog A -> Prop :=
  | Returns_Ret a : Returns (Ret a)
  | Returns_Await X (e : Request X) k :
      (forall x, Returns (k x)) ->
      Returns (Await e k).


(** ** Facts about [trim] *)

Lemma trimStart_length s : (length (trimStart s) <= length s)%nat.
Proof.
  induction s as [|c s IH]; simpl; [lia|].
  destruct (isWhiteSpace c); simpl; lia.
Qed.

Lemma trimEnd_length s : (length (trimEnd s) <= length s)%nat.
Proof.
  induction s as [|c s IH]; simpl; [lia|].
  destruct (trimEnd s); [destruct (isWhiteSpace c)|]; simpl in *; lia.
Qed.

Lemma trim_length s : (length (trim s) <= length s)%nat.
Proof.
  unfold trim. pose proof (trimEnd_length (trimStart s)).
  pose proof (trimStart_length s). lia.
Qed.

Lemma trimStart_head s :
  trimStart s = [] \/ exists c t, trimStart s = c :: t /\ isWhiteSpace c = false.
Proof.
  induction s as [|c s IH]; simpl; [by left|].
  destruct (isWhiteSpace c) eqn:E; [done|]. right. by exists c, s.
Qed.

Lemma trimStart_fixed c t :
  isWhiteSpace c = false -> trimStart (c :: t) = c :: t.
Proof. intros E. simpl. by rewrite E. Qed.

Lemma trimEnd_head c t :
  isWhiteSpace c = false -> exists t', trimEnd (c :: t) = c :: t'.
Proof.
  intros E. simpl. destruct (trimEnd t) as [|d t'].
  - rewrite E. by exists [].
  - by exists (d :: t').
Qed.

Lemma trimEnd_idem s : trimEnd (trimEnd s) = trimEnd s.
Proof.
  induction s as [|c s IH]; simpl; [done|].
  destruct (trimEnd s) as [|d t] eqn:E.
  - destruct (isWhiteSpace c) eqn:W; simpl; [done|]. by rewrite W.
  - change (trimEnd (c :: d :: t)) with
      (match trimEnd (d :: t) with
       | [] => if isWhiteSpace c then [] else [c]
       | t' => c :: t'
       end).
    by rewrite IH.
Qed.

Lemma trimStart_trim s : trimStart (trim s) = trim s.
Proof.
  unfold trim. destruct (trimStart_head s) as [-> | (c & t & -> & W)]; [done|].
  destruct (trimEnd_head c t W) as [t' ->]. by apply trimStart_fixed.
Qed.

Lemma trim_idem s : trim (trim s) = trim s.
Proof.
  unfold trim at 1. rewrite trimStart_trim. unfold trim. apply trimEnd_idem.
Qed.

Lemma startsWith_at s :
  startsWith s (lit "@") = true <-> exists t, s = 64 :: t.
Proof.
  change (lit "@") with [64]. destruct s as [|c t]; simpl.
  - split; [done | by intros [? ?]].
  - destruct (N.eqb_spec c 64) as [-> | Hne]; simpl.
    + split; [by exists t | done].
    + split; [done | intros [? [= ? _]]; done].
Qed.

(** ** The lookup key *)

(** C4, as amended: normalizing ["@" + u] yields the trimmed [u]; this is
    the key of the trimmed [u] exactly when the trimmed [u] does not itself
    begin with ["@"]; and normalization strips one leading ["@"], if
    present, and then trims. *)
Theorem cleanUsername_at_prefix (u : jsstring) :
  cleanUsername (lit "@" ++ u) = trim u
  /\ (cleanUsername (lit "@" ++ u) = cleanUsername (trim u)
      <-> startsWith (trim u) (lit "@") = false)
  /\ cleanUsername u
     = trim (if startsWith u (lit "@") then substring_from 1 u else u).
Proof.
  assert (Hat : cleanUsername (lit "@" ++ u) = trim u).
  { unfold cleanUsername. change (lit "@" ++ u) with (64 :: u).
    assert (E : startsWith (64 :: u) (lit "@") = true)
      by (apply startsWith_at; by exists u).
    by rewrite E. }
  split; [exact Hat|]. split.
  - rewrite Hat. unfold cleanUsername at 1.
    destruct (startsWith (trim u) (lit "@")) eqn:E.
    + split; [|done]. intros Heq. exfalso.
      apply startsWith_at in E as [t Ht]. rewrite Ht in Heq. simpl in Heq.
      unfold substring_from in Heq. simpl in Heq.
      pose proof (trim_length t) as Hlen. rewrite <- Heq in Hlen.
      simpl in Hlen. lia.
    + split; [done|]. intros _. symmetry. apply trim_idem.
  - unfold cleanUsername. by destruct (startsWith u (lit "@")).
Qed.

(** ** Running the page against an oracle *)

Lemma ask_member (o : Oracle) (params : Params) s :
  data_session (o _ auth_getSession) = Some s ->
  ask o (UserProfilePage params)
  = {| outcome :=
         Redirected (lit "/dashboard/public-profile/" ++ username params);
       final := tt;
       calls := [CallGetSession] |}.
Proof.
  intros H. unfold ask, UserProfilePage. cbn. rewrite H. reflexivity.
Qed.

Lemma ask_visitor (o : Oracle) (params : Params) :
  data_session (o _ auth_getSession) = None ->
  let key := cleanUsername (username params) in
  ask o (UserProfilePage params)
  = {| outcome :=
         Returned
           match resolved o key with
           | val p =>
               profileView p
                 (o _ (rows (resourcesQuery (UserProfile.id p))))
                 (o _ (rows (studyGroupsQuery (UserProfile.id p))))
           | _ => UserNotFound
           end;
       final := tt;
       calls :=
         CallGetSession :: CallMaybeSingle (exactLookup key)
         :: (if truthy (data_single (o _ (maybeSingle (exactLookup key))))
             then [] else [CallMaybeSingle (fallbackLookup key)])
         ++ match resolved o key with
            | val p =>
                [CallRows (resourcesQuery (UserProfile.id p));
                 CallRows (studyGroupsQuery (UserProfile.id p))]
            | _ => []
            end |}.
Proof.
  intros H key. subst key.
  unfold ask, UserProfilePage, resolved.
  set (key := cleanUsername (username params)). clearbody key.
  cbv in H. cbv. rewrite H.
  repeat (match goal with
          | |- context [o ?T (maybeSingle ?q)] =>
              destruct (o T (maybeSingle q)) as [[?|]|?]
          end; cbv);
    reflexivity.
Qed.

(** ** The store: order, filters and limits *)

Lemma str_le_total a b : str_le a b = true \/ str_le b a = true.
Proof.
  revert b. induction a as [|x a IH]; intros [|y b]; simpl; auto.
  destruct (N.ltb_spec x y); simpl; [by left|].
  destruct (N.ltb_spec y x); simpl; [by right|].
  assert (x = y) as -> by lia. rewrite N.eqb_refl. simpl. apply IH.
Qed.

Lemma cell_le_total a b : cell_le a b = true \/ cell_le b a = true.
Proof.
  destruct a as [|x|x|x], b as [|y|y|y]; simpl; auto.
  - destruct x, y; auto.
  - destruct (Z.leb_spec x y); [by left|]. right. apply Z.leb_le. lia.
  - apply str_le_total.
Qed.

#[local] Instance ordering_total t c ascending : Total (ordering t c ascending).
Proof.
  intros x y. unfold ordering. rewrite !Is_true_true.
  destruct ascending; apply cell_le_total.
Qed.

Lemma Sorted_take {A} (R : relation A) n l :
  Sorted R l -> Sorted R (take n l).
Proof.
  intros H. revert n. induction H as [|x l Hl IH Hd]; intros [|n]; simpl;
    try constructor; auto.
  destruct Hd; destruct n; simpl; constructor; auto.
Qed.

Lemma Sorted_weaken {A} (R1 R2 : relation A) l :
  (forall x y, R1 x y -> R2 x y) -> Sorted R1 l -> Sorted R2 l.
Proof.
  intros HR. induction 1 as [|x l Hl IH Hd]; constructor; auto.
  destruct Hd; constructor; auto.
Qed.

Lemma select_rows_limit db q n :
  q_limit q = Some n -> (length (select_rows db q) <= n)%nat.
Proof.
  intros H. unfold select_rows. rewrite H, length_take. lia.
Qed.

Lemma select_rows_elem db q r :
  r ∈ select_rows db q ->
  r ∈ table db (q_table q)
  /\ forallb (matches (q_table q) r) (q_filters q) = true.
Proof.
  unfold select_rows. intros H.
  assert (Hord : r ∈ match q_order q with
                     | Some (c, ascending) =>
                         merge_sort (ordering (q_table q) c ascending)
                           (filter (fun r => Is_true (forallb (matches (q_table q) r)
                                                        (q_filters q)))
                              (table db (q_table q)))
                     | None =>
                         filter (fun r => Is_true (forallb (matches (q_table q) r)
                                                     (q_filters q)))
                           (table db (q_table q))
                     end).
  { destruct (q_limit q); [|exact H]. by eapply subseteq_take. }
  assert (Hin : r ∈ filter (fun r => Is_true (forallb (matches (q_table q) r)
                                                (q_filters q)))
                      (table db (q_table q))).
  { destruct (q_order q) as [[c ascending]|]; [|exact Hord].
    by rewrite merge_sort_Permutation in Hord. }
  apply list_elem_of_filter in Hin as [Hm Hin]. split; [exact Hin|].
  by apply Is_true_true.
Qed.

Lemma select_rows_sorted db q c ascending :
  q_order q = Some (c, ascending) ->
  Sorted (ordering (q_table q) c ascending) (select_rows db q).
Proof.
  intros H. unfold select_rows. rewrite H.
  destruct (q_limit q); [apply Sorted_take|]; apply Sorted_merge_sort, _.
Qed.

(** ** Reads leave the world as it is *)

Lemma supabase_read X (e : Request X) w :
  call_reads (call_of e) = true -> (supabase X e w).2 = w.
Proof.
  destruct e as [|q|q]; simpl; [done| |]; unfold is_read, answer_rows;
    intros H; destruct (outage w q); simpl; try done;
    destruct (q_verb q); try done;
    by destruct (forallb _ _).
Qed.

Lemma ReadOnly_calls {A} (p : Prog A) :
  ReadOnly p ->
  forall W (h : Backend W) w,
    Forall (fun c => call_reads c = true) (calls (run h p w)).
Proof.
  induction 1 as [a|path|X e k He Hk IH]; intros W h w; simpl;
    [constructor|constructor|].
  destruct (h X e w) as [x w']. simpl. constructor; [exact He | apply IH].
Qed.

Lemma ReadOnly_run {A} (p : Prog A) :
  ReadOnly p ->
  forall w,
    run supabase p w
    = {| outcome := outcome (ask (snapshot w) p);
         final := w;
         calls := calls (ask (snapshot w) p) |}.
Proof.
  unfold ask.
  induction 1 as [a|path|X e k He Hk IH]; intros w; simpl; [done|done|].
  pose proof (supabase_read X e w He) as Hw.
  rewrite (surjective_pairing (supabase X e w)), Hw. simpl.
  rewrite IH. reflexivity.
Qed.

Lemma UserProfilePage_ReadOnly params : ReadOnly (UserProfilePage params).
Proof.
  unfold UserProfilePage.
  set (key := cleanUsername (username params)). clearbody key.
  cbn. apply ReadOnly_Await; [reflexivity|]. intros auth.
  destruct (data_session auth); cbn; [constructor|].
  apply ReadOnly_Await; [reflexivity|]. intros [[p|]|e]; cbn.
  - apply ReadOnly_Await; [reflexivity|]. intros r. cbn.
    apply ReadOnly_Await; [reflexivity|]. intros r'. cbn. constructor.
  - apply ReadOnly_Await; [reflexivity|]. intros [[p|]|e]; cbn; try solve [constructor].
    apply ReadOnly_Await; [reflexivity|]. intros r. cbn.
    apply ReadOnly_Await; [reflexivity|]. intros r'. cbn. constructor.
  - apply ReadOnly_Await; [reflexivity|]. intros [[p|]|e']; cbn; try solve [constructor].
    apply ReadOnly_Await; [reflexivity|]. intros r. cbn.
    apply ReadOnly_Await; [reflexivity|]. intros r'. cbn. constructor.
Qed.

Lemma serve_ask w params :
  serve w params
  = {| outcome := outcome (ask (snapshot w) (UserProfilePage params));
       final := w;
       calls := calls (ask (snapshot w) (UserProfilePage params)) |}.
Proof. apply ReadOnly_run, UserProfilePage_ReadOnly. Qed.

(** ** What the client answers in a world *)

Lemma snapshot_rows w q l :
  data (snapshot w _ (rows q)) = val l ->
  is_read q = true ->
  l = select_rows (database w) q.
Proof.
  unfold snapshot, is_read. simpl. unfold answer_rows.
  destruct (outage w q); simpl; [done|].
  destruct (q_verb q); try done.
  destruct (forallb _ _); simpl; [|done]. by intros [= ->].
Qed.

Lemma snapshot_single w q p :
  data_single (snapshot w _ (maybeSingle q)) = val p ->
  is_read q = true ->
  select_rows (database w) q = [p].
Proof.
  unfold snapshot, is_read. simpl. unfold answer_rows.
  destruct (outage w q); simpl; [done|].
  destruct (q_verb q); try done.
  destruct (forallb _ _); simpl; [|done].
  destruct (select_rows (database w) q) as [|x [|y l]]; simpl; try done.
  by intros [= ->].
Qed.

Lemma snapshot_single_found w q p :
  outage w q = None ->
  is_read q = true ->
  forallb (known (q_table q)) (referenced q) = true ->
  select_rows (database w) q = [p] ->
  snapshot w _ (maybeSingle q) = Success (Some p).
Proof.
  unfold snapshot, is_read. simpl. unfold answer_rows.
  intros -> Hread -> ->. by destruct (q_verb q).
Qed.

Lemma snapshot_single_none w q :
  outage w q = None ->
  is_read q = true ->
  forallb (known (q_table q)) (referenced q) = true ->
  select_rows (database w) q = [] ->
  snapshot w _ (maybeSingle q) = Success None.
Proof.
  unfold snapshot, is_read. simpl. unfold answer_rows.
  intros -> Hread -> ->. by destruct (q_verb q).
Qed.

Lemma shown_tab {A} (key_of : A -> jsstring) (xs : Js (list A)) msg :
  shown (tab key_of xs msg) = match xs with val l => l | _ => [] end.
Proof.
  destruct xs as [| |l]; try done. unfold tab.
  destruct l as [|x l]; [done|]. simpl. f_equal.
  rewrite map_map. simpl. apply map_id.
Qed.

(** The rows the two lookups can settle on are stored rows with a
    username. *)
Lemma resolved_stored w key p :
  resolved (snapshot w) key = val p ->
  p ∈ tbl_user_profiles (database w)
  /\ exists s, UserProfile.username p = Some s
       /\ (s = key \/ ilike_match key s = true).
Proof.
  unfold resolved.
  destruct (data_single (snapshot w _ (maybeSingle (exactLookup key))))
    as [| |p'] eqn:E; simpl.
  - intros H. apply (snapshot_single w (fallbackLookup key)) in H; [|done].
    assert (Hin : p ∈ select_rows (database w) (fallbackLookup key))
      by (rewrite H; apply list_elem_of_here).
    apply select_rows_elem in Hin as [Hin Hm]. split; [exact Hin|].
    simpl in Hm. rewrite andb_true_r in Hm.
    destruct (UserProfile.username p) as [s|]; [|done].
    exists s. split; [done|]. by right.
  - intros H. apply (snapshot_single w (fallbackLookup key)) in H; [|done].
    assert (Hin : p ∈ select_rows (database w) (fallbackLookup key))
      by (rewrite H; apply list_elem_of_here).
    apply select_rows_elem in Hin as [Hin Hm]. split; [exact Hin|].
    simpl in Hm. rewrite andb_true_r in Hm.
    destruct (UserProfile.username p) as [s|]; [|done].
    exists s. split; [done|]. by right.
  - intros [= <-]. apply (snapshot_single w (exactLookup key)) in E; [|done].
    assert (Hin : p' ∈ select_rows (database w) (exactLookup key))
      by (rewrite E; apply list_elem_of_here).
    apply select_rows_elem in Hin as [Hin Hm]. split; [exact Hin|].
    simpl in Hm. rewrite andb_true_r in Hm.
    destruct (UserProfile.username p') as [s|]; [|done].
    exists s. split; [done|]. left. by apply bool_decide_eq_true in Hm.
Qed.

(** ** ILIKE on a key without pattern characters *)

Lemma ilike_plain pattern s :
  plain pattern = true ->
  ilike_match pattern s = true <-> map lower pattern = map lower s.
Proof.
  revert s. induction pattern as [|c pattern IH]; intros s Hp.
  - destruct s; simpl; split; done.
  - simpl in Hp. apply andb_true_iff in Hp as [Hc Hp].
    apply negb_true_iff in Hc. unfold is_pattern_char in Hc.
    apply orb_false_iff in Hc as [Hc He].
    apply orb_false_iff in Hc as [Hs Ho].
    simpl. rewrite Hs, Ho, He.
    destruct s as [|x s]; simpl; [split; done|].
    rewrite andb_true_iff, N.eqb_eq, (IH s Hp). split.
    + intros [-> ->]. done.
    + intros [= -> ->]. done.
Qed.

Lemma exact_rows db key :
  select_rows db (exactLookup key)
  = filter (fun r => Is_true (same_exactly key r)) (tbl_user_profiles db).
Proof.
  unfold select_rows. simpl. apply list_filter_iff. intros r.
  unfold same_exactly. rewrite andb_true_r.
  by destruct (UserProfile.username r).
Qed.

Lemma fallback_rows db key :
  plain key = true ->
  select_rows db (fallbackLookup key)
  = filter (fun r => Is_true (same_ignoring_case key r)) (tbl_user_profiles db).
Proof.
  intros Hp. unfold select_rows. simpl. apply list_filter_iff. intros r.
  unfold same_ignoring_case. rewrite andb_true_r.
  destruct (UserProfile.username r) as [s|]; simpl; [|done].
  rewrite !Is_true_true, bool_decide_eq_true, (ilike_plain key s Hp).
  split; done.
Qed.

Lemma mended_single sel (o : Oracle) q :
  data_single (mended sel o _ (maybeSingle q))
  = data_single (o _ (maybeSingle q)).
Proof.
  unfold mended. simpl. destruct (sel _); [|done].
  by destruct (o _ (maybeSingle q)) as [[?|]|?].
Qed.

Lemma mended_resolved sel (o : Oracle) key :
  resolved (mended sel o) key = resolved o key.
Proof.
  unfold resolved.
  by rewrite (mended_single sel o (exactLookup key)),
    (mended_single sel o (fallbackLookup key)).
Qed.

Lemma mended_tab {A} sel (o : Oracle) q
    (cast : PostgrestResponse (list (Row (q_table q)))
            -> PostgrestResponse (list A))
    (key_of : A -> jsstring) msg :
  (forall e, cast (Failure e) = Failure e) ->
  cast (Success []) = Success [] ->
  tab key_of (default [] (data (cast (mended sel o _ (rows q))))) msg
  = tab key_of (default [] (data (cast (o _ (rows q))))) msg.
Proof.
  intros Hf Hs. unfold mended. simpl. destruct (sel _); [|done].
  destruct (o _ (rows q)) as [l|e]; [done|].
  by rewrite Hf, Hs.
Qed.

(** * The properties of the page *)

(** C1: when the auth provider reports a session, the page leaves at once
    with a redirect to ["/dashboard/public-profile/"] followed by the raw
    [username] parameter, and the only request it has made is the session
    check: no query reaches the data store. *)
Theorem session_redirects {W} (h : Backend W) (w : W) (params : Params)
    (s : Session) :
  data_session (h _ auth_getSession w).1 = Some s ->
  let r := run h (UserProfilePage params) w in
  outcome r = Redirected (lit "/dashboard/public-profile/" ++ username params)
  /\ calls r = [CallGetSession]
  /\ Forall (fun c => is_query c = false) (calls r).
Proof.
  intros H. unfold UserProfilePage. cbn.
  destruct (h _ auth_getSession w) as [auth w']. simpl in H.
  cbn. rewrite H. cbn. repeat split. by constructor.
Qed.

(** C3: without a session, when neither the exact lookup nor the
    case-insensitive fallback yields a row, the page returns the static
    "User Not Found" view, and its requests are the session check and the two
    lookups: no resource query and no study-group query. *)
Theorem not_found_stops (o : Oracle) (params : Params) :
  data_session (o _ auth_getSession) = None ->
  data_single
    (o _ (maybeSingle (exactLookup (cleanUsername (username params))))) = null ->
  data_single
    (o _ (maybeSingle (fallbackLookup (cleanUsername (username params))))) = null ->
  let key := cleanUsername (username params) in
  let r := ask o (UserProfilePage params) in
  outcome r = Returned UserNotFound
  /\ calls r = [CallGetSession; CallMaybeSingle (exactLookup key);
                CallMaybeSingle (fallbackLookup key)]
  /\ Forall (fun c => match c with CallRows _ => False | _ => True end)
       (calls r).
Proof.
  intros Hs He Hf key r. subst r. rewrite (ask_visitor o params Hs).
  fold key in He, Hf |- *. unfold resolved. rewrite He, Hf. simpl.
  repeat split. repeat constructor.
Qed.

(** C7: the error of a query is bound and never read. Answering any of the
    failed queries (the exact lookup, the fallback, the resource fetch, the
    study-group fetch) with a success that carries no data instead leaves
    the run of the page as it was: same outcome, same requests. *)
Theorem errors_are_swallowed (o : Oracle) (sel : Call -> bool)
    (params : Params) :
  ask (mended sel o) (UserProfilePage params) = ask o (UserProfilePage params).
Proof.
  assert (Hauth : mended sel o _ auth_getSession = o _ auth_getSession).
  { unfold mended. simpl. by destruct (sel _). }
  destruct (data_session (o _ auth_getSession)) as [s|] eqn:Hs.
  - rewrite (ask_member o params s Hs).
    apply (ask_member _ _ s). by rewrite Hauth.
  - rewrite (ask_visitor o params Hs).
    rewrite (ask_visitor (mended sel o) params) by (by rewrite Hauth).
    cbv zeta. rewrite mended_resolved, mended_single.
    destruct (resolved o (cleanUsername (username params))) as [| |p];
      try reflexivity.
    unfold profileView.
    rewrite (mended_tab sel o (resourcesQuery (UserProfile.id p)) (fun r => r))
      by done.
    rewrite (mended_tab sel o (studyGroupsQuery (UserProfile.id p)) (fun r => r))
      by done.
    reflexivity.
Qed.

(** C9: on every path the page only reads. Whatever the collaborator
    answers, each request is the session check or a [select]; and served
    from a world, the page leaves the world, its stored rows included, as
    it found it, whatever a write would have done. *)
Theorem page_never_writes {W} (h : Backend W) (w : W) (world : World)
    (params : Params) :
  Forall (fun c => call_reads c = true) (calls (run h (UserProfilePage params) w))
  /\ final (serve world params) = world.
Proof.
  split.
  - apply ReadOnly_calls, UserProfilePage_ReadOnly.
  - by rewrite serve_ask.
Qed.

Lemma resources_rows_spec db id l :
  l = select_rows db (resourcesQuery id) ->
  (length l <= 3)%nat
  /\ Forall (fun r => r ∈ tbl_resources db
                      /\ Resource.author_id r = id
                      /\ Resource.is_approved r = true) l
  /\ StronglySorted
       (fun a b => (Resource.created_at b <= Resource.created_at a)%Z) l.
Proof.
  intros ->. split; [|split].
  - by apply select_rows_limit.
  - apply Forall_forall. intros r Hr.
    apply (select_rows_elem db (resourcesQuery id)) in Hr as [Hin Hm].
    split; [exact Hin|].
    simpl in Hm. rewrite andb_true_r in Hm.
    apply andb_true_iff in Hm as [Ha Hb].
    apply bool_decide_eq_true in Ha. by apply Bool.eqb_prop in Hb.
  - apply Sorted_StronglySorted.
    { intros a b c Hab Hbc. lia. }
    eapply Sorted_weaken;
      [|exact (select_rows_sorted db (resourcesQuery id) "created_at" false eq_refl)].
    intros a b Hab. unfold ordering in Hab. simpl in Hab.
    apply Is_true_true in Hab. by apply Z.leb_le.
Qed.

Lemma groups_rows_spec db id l :
  l = select_rows db (studyGroupsQuery id) ->
  (length l <= 3)%nat
  /\ Forall (fun g => g ∈ tbl_study_groups db
                      /\ StudyGroup.created_by g = id
                      /\ StudyGroup.is_private g = false) l
  /\ StronglySorted
       (fun a b => (StudyGroup.created_at b <= StudyGroup.created_at a)%Z) l.
Proof.
  intros ->. split; [|split].
  - by apply select_rows_limit.
  - apply Forall_forall. intros g Hg.
    apply (select_rows_elem db (studyGroupsQuery id)) in Hg as [Hin Hm].
    split; [exact Hin|].
    simpl in Hm. rewrite andb_true_r in Hm.
    apply andb_true_iff in Hm as [Ha Hb].
    apply bool_decide_eq_true in Ha. by apply Bool.eqb_prop in Hb.
  - apply Sorted_StronglySorted.
    { intros a b c Hab Hbc. lia. }
    eapply Sorted_weaken;
      [|exact (select_rows_sorted db (studyGroupsQuery id) "created_at" false eq_refl)].
    intros a b Hab. unfold ordering in Hab. simpl in Hab.
    apply Is_true_true in Hab. by apply Z.leb_le.
Qed.

Lemma serve_visitor w params p :
  session w = None ->
  resolved (snapshot w) (cleanUsername (username params)) = val p ->
  outcome (serve w params)
  = Returned
      (profileView p
         (snapshot w _ (rows (resourcesQuery (UserProfile.id p))))
         (snapshot w _ (rows (studyGroupsQuery (UserProfile.id p))))).
Proof.
  intros Hs Hr. rewrite serve_ask, (ask_visitor (snapshot w) params Hs).
  cbn [outcome]. by rewrite Hr.
Qed.

(** C5: for the profile the lookups settle on, the resources of the
    rendered view are at most 3, each is a stored row whose [author_id] is
    the id of the profile and whose [is_approved] is true, and they come
    newest first by [created_at]. *)
Theorem resources_tab_rows (w : World) (params : Params)
    (p : UserProfile.row) :
  session w = None ->
  resolved (snapshot w) (cleanUsername (username params)) = val p ->
  exists resourcesTab studyGroupsTab,
    outcome (serve w params)
    = Returned (ProfileView (ProfileHeader p) resourcesTab studyGroupsTab)
    /\ (length (shown resourcesTab) <= 3)%nat
    /\ Forall (fun r => r ∈ tbl_resources (database w)
                        /\ Resource.author_id r = UserProfile.id p
                        /\ Resource.is_approved r = true)
         (shown resourcesTab)
    /\ StronglySorted
         (fun a b => (Resource.created_at b <= Resource.created_at a)%Z)
         (shown resourcesTab).
Proof.
  intros Hs Hr. rewrite (serve_visitor w params p Hs Hr). unfold profileView.
  eexists _, _. split; [reflexivity|]. rewrite shown_tab.
  match goal with
  | |- context [@data ?A ?x] => destruct (@data A x) as [| |l] eqn:E; simpl
  end.
  - split; [simpl; lia | split; constructor].
  - split; [simpl; lia | split; constructor].
  - apply (resources_rows_spec (database w) (UserProfile.id p)).
    by apply (snapshot_rows w (resourcesQuery (UserProfile.id p))).
Qed.

(** C6: for the profile the lookups settle on, the study groups of the
    rendered view are at most 3, each is a stored row whose [created_by] is
    the id of the profile and whose [is_private] is false, and they come
    newest first by [created_at]. *)
Theorem study_groups_tab_rows (w : World) (params : Params)
    (p : UserProfile.row) :
  session w = None ->
  resolved (snapshot w) (cleanUsername (username params)) = val p ->
  exists resourcesTab studyGroupsTab,
    outcome (serve w params)
    = Returned (ProfileView (ProfileHeader p) resourcesTab studyGroupsTab)
    /\ (length (shown studyGroupsTab) <= 3)%nat
    /\ Forall (fun g => g ∈ tbl_study_groups (database w)
                        /\ StudyGroup.created_by g = UserProfile.id p
                        /\ StudyGroup.is_private g = false)
         (shown studyGroupsTab)
    /\ StronglySorted
         (fun a b => (StudyGroup.created_at b <= StudyGroup.created_at a)%Z)
         (shown studyGroupsTab).
Proof.
  intros Hs Hr. rewrite (serve_visitor w params p Hs Hr). unfold profileView.
  eexists _, _. split; [reflexivity|]. rewrite shown_tab.
  match goal with
  | |- context [@data ?A ?x] => destruct (@data A x) as [| |l] eqn:E; simpl
  end.
  - split; [simpl; lia | split; constructor].
  - split; [simpl; lia | split; constructor].
  - apply (groups_rows_spec (database w) (UserProfile.id p)).
    by apply (snapshot_rows w (studyGroupsQuery (UserProfile.id p))).
Qed.

Lemma truthy_text_false x :
  truthy_text x = false <-> x = None \/ x = Some [].
Proof.
  destruct x as [[|c s]|]; simpl; split; try done; auto.
  - by intros [|].
Qed.

(** C8: for the row the lookups settle on, the heading is [full_name], or
    [username] when [full_name] is empty or absent; the avatar fallback is
    the first two code units of that same text, upper-cased; and each of
    the university, major and bio lines is absent when its field is empty
    or absent, and shows the field otherwise. *)
Theorem header_fields (o : Oracle) (params : Params) (p : UserProfile.row) :
  data_session (o _ auth_getSession) = None ->
  resolved o (cleanUsername (username params)) = val p ->
  let absent x := x = None \/ x = Some [] in
  let line field shown_line :=
    (absent field -> shown_line = None)
    /\ (~ absent field -> shown_line = field) in
  exists header resourcesTab studyGroupsTab,
    outcome (ask o (UserProfilePage params))
    = Returned (ProfileView header resourcesTab studyGroupsTab)
    /\ (~ absent (UserProfile.full_name p) ->
        heading header = UserProfile.full_name p
        /\ avatar_fallback header
           = toUpperCase (take 2 (text_of (UserProfile.full_name p))))
    /\ (absent (UserProfile.full_name p) ->
        heading header = UserProfile.username p
        /\ avatar_fallback header
           = toUpperCase (take 2 (text_of (UserProfile.username p))))
    /\ line (UserProfile.university p) (university_line header)
    /\ line (UserProfile.major p) (major_line header)
    /\ line (UserProfile.bio p) (bio_line header).
Proof.
  intros Hs Hr absent line.
  rewrite (ask_visitor o params Hs). cbn [outcome]. rewrite Hr.
  eexists _, _, _. split; [reflexivity|].
  assert (Hline : forall x, line x (if truthy_text x then x else None)).
  { intros x. unfold line, absent. rewrite <- truthy_text_false.
    destruct (truthy_text x); split; intros H; congruence. }
  unfold ProfileHeader, or_else, substring, substring_from.
  cbn [heading avatar_fallback university_line major_line bio_line
       Nat.max Nat.min Nat.sub drop].
  repeat split; try apply Hline.
  - unfold absent in H. rewrite <- truthy_text_false in H.
    by destruct (truthy_text (UserProfile.full_name p)).
  - unfold absent in H. rewrite <- truthy_text_false in H.
    destruct (UserProfile.full_name p) as [[|c s]|]; simpl in *; congruence.
  - unfold absent in H. rewrite <- truthy_text_false in H. by rewrite H.
  - unfold absent in H. rewrite <- truthy_text_false in H. rewrite H.
    by destruct (UserProfile.username p) as [[|c s]|].
Qed.

(** C10: the handle line is ["@"] followed by the [username] of the stored
    row the lookups settle on, in its stored casing, whatever casing the
    visitor typed. *)
Theorem handle_shows_stored_username (w : World) (params : Params)
    (p : UserProfile.row) :
  session w = None ->
  resolved (snapshot w) (cleanUsername (username params)) = val p ->
  exists header resourcesTab studyGroupsTab stored,
    outcome (serve w params)
    = Returned (ProfileView header resourcesTab studyGroupsTab)
    /\ p ∈ tbl_user_profiles (database w)
    /\ UserProfile.username p = Some stored
    /\ handle header = lit "@" ++ stored.
Proof.
  intros Hs Hr. rewrite (serve_visitor w params p Hs Hr). unfold profileView.
  destruct (resolved_stored w _ p Hr) as (Hin & s & Hu & _).
  eexists _, _, _, s. split; [reflexivity|].
  split; [exact Hin|]. split; [exact Hu|].
  unfold ProfileHeader. cbn [handle]. by rewrite Hu.
Qed.

Lemma visitor_finds w key p :
  (forall q, outage w q = None) ->
  filter (fun r => Is_true (same_exactly key r))
    (tbl_user_profiles (database w)) = [p]
  \/ (plain key = true
      /\ filter (fun r => Is_true (same_exactly key r))
           (tbl_user_profiles (database w)) = []
      /\ filter (fun r => Is_true (same_ignoring_case key r))
           (tbl_user_profiles (database w)) = [p]) ->
  resolved (snapshot w) key = val p.
Proof.
  intros Hout [Hex | (Hp & Hex & Hci)]; unfold resolved.
  - rewrite (snapshot_single_found w (exactLookup key) p); try done.
    by rewrite exact_rows.
  - rewrite (snapshot_single_none w (exactLookup key)); try done;
      [|by rewrite exact_rows].
    cbn [truthy data_single].
    rewrite (snapshot_single_found w (fallbackLookup key) p); try done.
    by rewrite fallback_rows.
Qed.

(** C2, as amended: without a session the page first issues the exact,
    case-sensitive lookup of the key; the case-insensitive lookup is issued
    exactly when the exact one yields no row; the row of the exact lookup,
    when there is one, is the row rendered, and otherwise the row of the
    fallback is. Against the store, without failed queries: a lone row whose
    username is the key is rendered; and when no username is the key, the
    key has no pattern character, and exactly one stored username equals it
    up to case, that row is rendered. *)
Theorem lookup_order (params : Params) :
  let key := cleanUsername (username params) in
  (forall o : Oracle,
     data_session (o _ auth_getSession) = None ->
     let r := ask o (UserProfilePage params) in
     let exact := data_single (o _ (maybeSingle (exactLookup key))) in
     let fallback := data_single (o _ (maybeSingle (fallbackLookup key))) in
     let view p :=
       Returned
         (profileView p
            (o _ (rows (resourcesQuery (UserProfile.id p))))
            (o _ (rows (studyGroupsQuery (UserProfile.id p))))) in
     (exists rest,
        calls r
        = CallGetSession :: CallMaybeSingle (exactLookup key) :: rest
        /\ (CallMaybeSingle (fallbackLookup key) ∈ rest
            <-> truthy exact = false))
     /\ (forall p, exact = val p -> outcome r = view p)
     /\ (forall p, truthy exact = false -> fallback = val p ->
         outcome r = view p))
  /\ (forall (w : World) (p : UserProfile.row),
        session w = None ->
        (forall q, outage w q = None) ->
        filter (fun r => Is_true (same_exactly key r))
          (tbl_user_profiles (database w)) = [p]
        \/ (plain key = true
            /\ filter (fun r => Is_true (same_exactly key r))
                 (tbl_user_profiles (database w)) = []
            /\ filter (fun r => Is_true (same_ignoring_case key r))
                 (tbl_user_profiles (database w)) = [p]) ->
        outcome (serve w params)
        = Returned
            (profileView p
               (snapshot w _ (rows (resourcesQuery (UserProfile.id p))))
               (snapshot w _ (rows (studyGroupsQuery (UserProfile.id p)))))).
Proof.
  intros key. split.
  - intros o Hs r exact fallback view. subst r.
    rewrite (ask_visitor o params Hs). fold key. cbn [calls outcome].
    unfold resolved. fold exact. fold fallback.
    split; [|split].
    + eexists. split; [reflexivity|].
      destruct exact as [| |p] eqn:E; simpl.
      * split; [done|]. intros _. apply list_elem_of_here.
      * split; [done|]. intros _. apply list_elem_of_here.
      * split; [|done]. intros H.
        apply elem_of_cons in H as [H|H]; [done|].
        apply elem_of_cons in H as [H|H]; [done|].
        by apply elem_of_nil in H.
    + intros p ->. reflexivity.
    + intros p Hex ->. by destruct exact.
  - intros w p Hs Hout Hrows.
    apply serve_visitor; [exact Hs|]. by apply visitor_finds.
Qed.

(** * Further properties of the page *)

(** ** The lookup key *)

Lemma trimEnd_last s c :
  last (trimEnd s) = Some c -> isWhiteSpace c = false.
Proof.
  induction s as [|x s IH]; simpl; [done|].
  destruct (trimEnd s) as [|y t] eqn:E.
  - destruct (isWhiteSpace x) eqn:W; simpl; [done|]. by intros [= <-].
  - intros H. apply IH. exact H.
Qed.

Lemma trim_head s c : head (trim s) = Some c -> isWhiteSpace c = false.
Proof.
  unfold trim. destruct (trimStart_head s) as [-> | (x & t & -> & W)]; [done|].
  destruct (trimEnd_head x t W) as [t' ->]. simpl. by intros [= <-].
Qed.

Lemma trim_blank s :
  Forall (fun c => isWhiteSpace c = true) s -> trim s = [].
Proof.
  unfold trim. induction 1 as [|c s Hc Hs IH]; simpl; [done|].
  by rewrite Hc.
Qed.

Lemma cleanUsername_at u : cleanUsername (lit "@" ++ u) = trim u.
Proof.
  unfold cleanUsername. change (lit "@" ++ u) with (64 :: u).
  assert (E : startsWith (64 :: u) (lit "@") = true)
    by (apply startsWith_at; by exists u).
  by rewrite E.
Qed.

(** X1: the lookup key never begins or ends with a whitespace code unit, and
    it is never longer than the raw parameter. *)
Theorem key_is_trimmed (u : jsstring) :
  (forall c, head (cleanUsername u) = Some c -> isWhiteSpace c = false)
  /\ (forall c, last (cleanUsername u) = Some c -> isWhiteSpace c = false)
  /\ (length (cleanUsername u) <= length u)%nat.
Proof.
  unfold cleanUsername, substring_from.
  destruct (startsWith u (lit "@")); (split; [|split]).
  - intros c. apply trim_head.
  - intros c. apply trimEnd_last.
  - pose proof (trim_length (drop 1 u)). pose proof (length_drop u 1). lia.
  - intros c. apply trim_head.
  - intros c. apply trimEnd_last.
  - apply trim_length.
Qed.

(** ** Outcomes and requests *)

Lemma Returns_run {A} (p : Prog A) :
  Returns p ->
  forall W (h : Backend W) w, exists a, outcome (run h p w) = Returned a.
Proof.
  induction 1 as [a|X e k Hk IH]; intros W h w; simpl; [by exists a|].
  destruct (h X e w) as [x w']. simpl. apply IH.
Qed.

Lemma run_await {W A X} (h : Backend W) (e : Request X) (f : X -> Prog A) w :
  run h (x <- await e ;; f x) w
  = {| outcome := outcome (run h (f (h X e w).1) (h X e w).2);
       final := final (run h (f (h X e w).1) (h X e w).2);
       calls := call_of e :: calls (run h (f (h X e w).1) (h X e w).2) |}.
Proof. cbn. by destruct (h X e w). Qed.

(** X2: the page redirects exactly when the auth provider reports a
    session; without one it always returns a view. *)
Theorem redirect_iff_session {W} (h : Backend W) (w : W) (params : Params) :
  let r := run h (UserProfilePage params) w in
  ((exists path, outcome r = Redirected path)
   <-> exists s, data_session (h _ auth_getSession w).1 = Some s)
  /\ ((exists view, outcome r = Returned view)
      <-> data_session (h _ auth_getSession w).1 = None).
Proof.
  unfold UserProfilePage.
  set (key := cleanUsername (username params)). clearbody key.
  rewrite run_await. cbn [outcome].
  destruct (data_session (h _ auth_getSession w).1) as [s|] eqn:Hs.
  - cbn. split; split.
    + intros _. by exists s.
    + intros _. by eexists.
    + by intros [view ?].
    + done.
  - cbn [bind].
    match goal with
    | |- context [run h ?p ?w'] => assert (Hp : Returns p)
    end.
    { apply Returns_Await. intros [[p|]|e]; cbn.
      - apply Returns_Await. intros r. cbn.
        apply Returns_Await. intros r'. cbn. constructor.
      - apply Returns_Await. intros [[p|]|e]; cbn; try solve [constructor].
        apply Returns_Await. intros r. cbn.
        apply Returns_Await. intros r'. cbn. constructor.
      - apply Returns_Await. intros [[p|]|e']; cbn; try solve [constructor].
        apply Returns_Await. intros r. cbn.
        apply Returns_Await. intros r'. cbn. constructor. }
    destruct (Returns_run _ Hp W h (h _ auth_getSession w).2) as [view Hview].
    rewrite Hview. split; split.
    + by intros [path ?].
    + by intros [s ?].
    + done.
    + intros _. by exists view.
Qed.


(** X4: without a session the page depends on the raw parameter through
    the key only: two parameters with the same key give the same run. *)
Theorem same_key_same_page (o : Oracle) (u u' : jsstring) :
  data_session (o _ auth_getSession) = None ->
  cleanUsername u = cleanUsername u' ->
  ask o (UserProfilePage {| username := u |})
  = ask o (UserProfilePage {| username := u' |}).
Proof.
  intros Hs Hk.
  rewrite (ask_visitor o {| username := u |} Hs).
  rewrite (ask_visitor o {| username := u' |} Hs).
  cbn [username]. by rewrite Hk.
Qed.

(** ** Lookups against the store *)

Lemma serve_no_row w params :
  session w = None ->
  (forall p, resolved (snapshot w) (cleanUsername (username params)) <> val p) ->
  outcome (serve w params) = Returned UserNotFound
  /\ calls (serve w params)
     = [CallGetSession;
        CallMaybeSingle (exactLookup (cleanUsername (username params)));
        CallMaybeSingle (fallbackLookup (cleanUsername (username params)))].
Proof.
  intros Hs Hr. rewrite serve_ask, (ask_visitor (snapshot w) params Hs).
  cbn [outcome calls]. revert Hr. unfold resolved.
  set (key := cleanUsername (username params)).
  destruct (data_single (snapshot w _ (maybeSingle (exactLookup key))))
    as [| |p]; cbn [truthy]; intros Hr;
    [| |by destruct (Hr p)];
    by destruct (data_single (snapshot w _ (maybeSingle (fallbackLookup key))))
      as [| |p]; [| |destruct (Hr p)].
Qed.

Lemma exact_answer w key p :
  data_single (snapshot w _ (maybeSingle (exactLookup key))) = val p ->
  filter (fun r => Is_true (same_exactly key r))
    (tbl_user_profiles (database w)) = [p].
Proof.
  intros H. apply (snapshot_single w (exactLookup key)) in H; [|done].
  by rewrite exact_rows in H.
Qed.

Lemma pattern_rows db key :
  select_rows db (fallbackLookup key)
  = filter (fun r => Is_true (same_as_pattern key r)) (tbl_user_profiles db).
Proof.
  unfold select_rows. simpl. apply list_filter_iff. intros r.
  unfold same_as_pattern. rewrite andb_true_r.
  by destruct (UserProfile.username r).
Qed.

Lemma fallback_answer w key p :
  data_single (snapshot w _ (maybeSingle (fallbackLookup key))) = val p ->
  filter (fun r => Is_true (same_as_pattern key r))
    (tbl_user_profiles (database w)) = [p].
Proof.
  intros H. apply (snapshot_single w (fallbackLookup key)) in H; [|done].
  by rewrite pattern_rows in H.
Qed.

Lemma resolved_cases w key p :
  resolved (snapshot w) key = val p ->
  filter (fun r => Is_true (same_exactly key r))
    (tbl_user_profiles (database w)) = [p]
  \/ filter (fun r => Is_true (same_as_pattern key r))
       (tbl_user_profiles (database w)) = [p].
Proof.
  unfold resolved.
  destruct (data_single (snapshot w _ (maybeSingle (exactLookup key))))
    as [| |p'] eqn:E; cbn [truthy]; intros H.
  - right. by apply fallback_answer.
  - right. by apply fallback_answer.
  - left. injection H as <-. by apply exact_answer.
Qed.

Lemma ilike_empty s : ilike_match [] s = true -> s = [].
Proof. by destruct s. Qed.

(** X5: a parameter that is blank, or ["@"] followed by blanks, is not
    rejected: its key is empty, both lookups are issued with the empty key,
    and unless a stored username is itself empty the page is "User Not
    Found". *)
Theorem blank_username_not_found (w : World) (u raw : jsstring) :
  Forall (fun c => isWhiteSpace c = true) u ->
  raw = u \/ raw = lit "@" ++ u ->
  session w = None ->
  filter (fun r => Is_true (same_exactly [] r))
    (tbl_user_profiles (database w)) = [] ->
  cleanUsername raw = []
  /\ outcome (serve w {| username := raw |}) = Returned UserNotFound
  /\ calls (serve w {| username := raw |})
     = [CallGetSession; CallMaybeSingle (exactLookup []);
        CallMaybeSingle (fallbackLookup [])].
Proof.
  intros Hu Hraw Hs Hnone.
  assert (Hkey : cleanUsername raw = []).
  { destruct Hraw as [-> | ->].
    - unfold cleanUsername.
      assert (E : startsWith u (lit "@") = false).
      { destruct Hu as [|c u Hc _]; [done|].
        change (lit "@") with [64]. simpl.
        destruct (N.eqb_spec c 64) as [-> | _]; [done|done]. }
      rewrite E. by apply trim_blank.
    - rewrite cleanUsername_at. by apply trim_blank. }
  split; [exact Hkey|].
  rewrite <- Hkey. apply (serve_no_row w {| username := raw |} Hs).
  cbn [username]. rewrite Hkey. intros p Hp.
  destruct (resolved_stored w [] p Hp) as (Hin & s & Hname & Hmatch).
  assert (s = []) as -> by (destruct Hmatch; [done | by apply ilike_empty]).
  assert (Hp' : p ∈ filter (fun r => Is_true (same_exactly [] r))
                  (tbl_user_profiles (database w))).
  { apply list_elem_of_filter. split; [|exact Hin].
    unfold same_exactly. rewrite Hname. by apply Is_true_true, bool_decide_eq_true. }
  rewrite Hnone in Hp'. by apply elem_of_nil in Hp'.
Qed.

(** X6: the lookups are sound. Without a session and for a key without
    pattern characters, the page is either "User Not Found" or the view of a
    stored row whose username equals the key up to case, whichever queries
    fail. *)
Theorem rendered_row_matches_key (w : World) (params : Params) :
  session w = None ->
  plain (cleanUsername (username params)) = true ->
  outcome (serve w params) = Returned UserNotFound
  \/ exists p resourcesTab studyGroupsTab,
       p ∈ tbl_user_profiles (database w)
       /\ same_ignoring_case (cleanUsername (username params)) p = true
       /\ outcome (serve w params)
          = Returned (ProfileView (ProfileHeader p) resourcesTab studyGroupsTab).
Proof.
  intros Hs Hp. set (key := cleanUsername (username params)) in *.
  destruct (resolved (snapshot w) key) as [| |p] eqn:Hr.
  - left. apply (serve_no_row w params Hs). fold key. by rewrite Hr.
  - left. apply (serve_no_row w params Hs). fold key. by rewrite Hr.
  - right. destruct (resolved_stored w key p Hr) as (Hin & s & Hname & Hmatch).
    eexists p, _, _. split; [exact Hin|]. split.
    + unfold same_ignoring_case. rewrite Hname. apply bool_decide_eq_true.
      destruct Hmatch as [-> | Hm]; [done|].
      symmetry. by apply (ilike_plain key s Hp).
    + by rewrite (serve_visitor w params p Hs Hr).
Qed.

(** X7: an ambiguous key is not resolved. Without a session, when the key
    has no pattern character, the stored usernames equal to it are not
    exactly one, and two or more stored usernames equal it up to case, the
    page is "User Not Found". *)
Theorem ambiguous_key_not_found (w : World) (params : Params) :
  session w = None ->
  plain (cleanUsername (username params)) = true ->
  length (filter (fun r => Is_true (same_exactly (cleanUsername (username params)) r))
            (tbl_user_profiles (database w))) <> 1%nat ->
  (2 <= length (filter (fun r => Is_true (same_ignoring_case
                                            (cleanUsername (username params)) r))
                  (tbl_user_profiles (database w))))%nat ->
  outcome (serve w params) = Returned UserNotFound.
Proof.
  intros Hs Hp Hex Hci. apply (serve_no_row w params Hs).
  set (key := cleanUsername (username params)) in *.
  intros p Hr. destruct (resolved_cases w key p Hr) as [H | H].
  - rewrite H in Hex. by apply Hex.
  - rewrite <- pattern_rows, (fallback_rows _ key Hp) in H.
    rewrite H in Hci. simpl in Hci. lia.
Qed.



(** ** The newest rows *)

Lemma snapshot_rows_ok w q :
  outage w q = None ->
  is_read q = true ->
  forallb (known (q_table q)) (referenced q) = true ->
  snapshot w _ (rows q) = Success (select_rows (database w) q).
Proof.
  unfold snapshot, is_read. simpl. unfold answer_rows.
  intros -> Hread ->. by destruct (q_verb q).
Qed.

Lemma newest_first {A} (at_ : A -> Z) (R : relation A) (HT : Total R)
    `{forall x y, Decision (R x y)} (m : list A) (n : nat) (r : A) :
  (forall a b, R a b -> (at_ b <= at_ a)%Z) ->
  r ∈ m ->
  r ∈ take n (merge_sort R m)
  \/ (length (take n (merge_sort R m)) = n
      /\ Forall (fun s => (at_ r <= at_ s)%Z) (take n (merge_sort R m))).
Proof.
  intros HR Hr. set (l := merge_sort R m).
  assert (Hl : r ∈ l) by (unfold l; by rewrite merge_sort_Permutation).
  assert (Hs : StronglySorted (fun a b => (at_ b <= at_ a)%Z) l).
  { apply Sorted_StronglySorted.
    { intros a b c Hab Hbc. lia. }
    eapply Sorted_weaken; [exact HR|]. apply Sorted_merge_sort, _. }
  rewrite <- (take_drop n l) in Hl, Hs.
  apply elem_of_app in Hl as [Hl | Hl]; [by left|]. right.
  apply StronglySorted_app in Hs as (Hcross & _ & _). split.
  - apply length_take_le.
    destruct (decide (n <= length l)%nat) as [|Hn]; [done|].
    rewrite drop_ge in Hl by lia. by apply elem_of_nil in Hl.
  - apply Forall_forall. intros s Hs. by apply Hcross.
Qed.

Lemma resources_rows_newest db id r :
  r ∈ tbl_resources db ->
  Resource.author_id r = id ->
  Resource.is_approved r = true ->
  r ∈ select_rows db (resourcesQuery id)
  \/ (length (select_rows db (resourcesQuery id)) = 3%nat
      /\ Forall (fun s => (Resource.created_at r <= Resource.created_at s)%Z)
           (select_rows db (resourcesQuery id))).
Proof.
  intros Hin Ha Hb.
  apply (newest_first Resource.created_at (ordering resources "created_at" false)
           (ordering_total resources "created_at" false)).
  - intros a b Hab. unfold ordering in Hab. simpl in Hab.
    apply Is_true_true in Hab. by apply Z.leb_le.
  - apply list_elem_of_filter. split; [|exact Hin].
    simpl. rewrite Ha, Hb. simpl. rewrite andb_true_r.
    by apply Is_true_true, bool_decide_eq_true.
Qed.

Lemma groups_rows_newest db id g :
  g ∈ tbl_study_groups db ->
  StudyGroup.created_by g = id ->
  StudyGroup.is_private g = false ->
  g ∈ select_rows db (studyGroupsQuery id)
  \/ (length (select_rows db (studyGroupsQuery id)) = 3%nat
      /\ Forall (fun s => (StudyGroup.created_at g <= StudyGroup.created_at s)%Z)
           (select_rows db (studyGroupsQuery id))).
Proof.
  intros Hin Ha Hb.
  apply (newest_first StudyGroup.created_at
           (ordering study_groups "created_at" false)
           (ordering_total study_groups "created_at" false)).
  - intros a b Hab. unfold ordering in Hab. simpl in Hab.
    apply Is_true_true in Hab. by apply Z.leb_le.
  - apply list_elem_of_filter. split; [|exact Hin].
    simpl. rewrite Ha, Hb. simpl. rewrite andb_true_r.
    by apply Is_true_true, bool_decide_eq_true.
Qed.

(** X10: the resources shown are the newest ones. When the resource fetch
    does not fail, every stored resource of the profile that is approved is
    shown, unless three resources are shown and each of them is at least as
    new. *)
Theorem newest_resources_shown (w : World) (params : Params)
    (p : UserProfile.row) :
  session w = None ->
  resolved (snapshot w) (cleanUsername (username params)) = val p ->
  outage w (resourcesQuery (UserProfile.id p)) = None ->
  exists resourcesTab studyGroupsTab,
    outcome (serve w params)
    = Returned (ProfileView (ProfileHeader p) resourcesTab studyGroupsTab)
    /\ forall r,
         r ∈ tbl_resources (database w) ->
         Resource.author_id r = UserProfile.id p ->
         Resource.is_approved r = true ->
         r ∈ shown resourcesTab
         \/ (length (shown resourcesTab) = 3%nat
             /\ Forall (fun s => (Resource.created_at r <= Resource.created_at s)%Z)
                  (shown resourcesTab)).
Proof.
  intros Hs Hr Hout. rewrite (serve_visitor w params p Hs Hr). unfold profileView.
  eexists _, _. split; [reflexivity|]. rewrite shown_tab.
  rewrite (snapshot_rows_ok w (resourcesQuery (UserProfile.id p)) Hout eq_refl eq_refl).
  cbn [data default]. intros r. apply resources_rows_newest.
Qed.

(** X11: the study groups shown are the newest ones. When the study-group
    fetch does not fail, every stored group created by the profile that is
    not private is shown, unless three groups are shown and each of them is
    at least as new. *)
Theorem newest_study_groups_shown (w : World) (params : Params)
    (p : UserProfile.row) :
  session w = None ->
  resolved (snapshot w) (cleanUsername (username params)) = val p ->
  outage w (studyGroupsQuery (UserProfile.id p)) = None ->
  exists resourcesTab studyGroupsTab,
    outcome (serve w params)
    = Returned (ProfileView (ProfileHeader p) resourcesTab studyGroupsTab)
    /\ forall g,
         g ∈ tbl_study_groups (database w) ->
         StudyGroup.created_by g = UserProfile.id p ->
         StudyGroup.is_private g = false ->
         g ∈ shown studyGroupsTab
         \/ (length (shown studyGroupsTab) = 3%nat
             /\ Forall (fun s => (StudyGroup.created_at g
                                   <= StudyGroup.created_at s)%Z)
                  (shown studyGroupsTab)).
Proof.
  intros Hs Hr Hout. rewrite (serve_visitor w params p Hs Hr). unfold profileView.
  eexists _, _. split; [reflexivity|]. rewrite shown_tab.
  rewrite (snapshot_rows_ok w (studyGroupsQuery (UserProfile.id p)) Hout
             eq_refl eq_refl).
  cbn [data default]. intros g. apply groups_rows_newest.
Qed.

(** ** The two tabs and the avatar *)

Lemma tab_shape {A} (key_of : A -> jsstring) (xs : Js (list A)) msg n :
  (forall l, xs = val l -> (length l <= n)%nat) ->
  tab key_of xs msg = EmptyState msg
  \/ exists cards,
       tab key_of xs msg = CardGrid cards
       /\ (1 <= length cards <= n)%nat
       /\ Forall (fun c => key c = key_of (item c)) cards
       /\ xs = val (map item cards).
Proof.
  intros Hn. destruct xs as [| |[|x l]]; try (by left). right.
  eexists. split; [reflexivity|]. specialize (Hn _ eq_refl).
  rewrite length_map. split; [simpl in *; lia|]. split.
  - apply Forall_forall. intros c Hc.
    apply list_elem_of_fmap in Hc as (y & -> & _). done.
  - rewrite map_map. simpl. by rewrite map_id.
Qed.

Lemma default_data {A} (r : PostgrestResponse (list A)) l :
  default [] (data r) = val l -> data r = val l.
Proof. by destruct r. Qed.

(** X12: each tab of a rendered profile is either its empty-state message
    or a grid of one to three cards, one per row fetched and in the order
    fetched, each keyed by the id of its row; a grid is never empty. *)
Theorem tabs_are_messages_or_cards (w : World) (params : Params)
    (p : UserProfile.row) :
  session w = None ->
  resolved (snapshot w) (cleanUsername (username params)) = val p ->
  exists resourcesTab studyGroupsTab,
    outcome (serve w params)
    = Returned (ProfileView (ProfileHeader p) resourcesTab studyGroupsTab)
    /\ (resourcesTab = EmptyState "No public resources available"
        \/ exists cards,
             resourcesTab = CardGrid cards
             /\ (1 <= length cards <= 3)%nat
             /\ Forall (fun c => key c = Resource.id (item c)) cards
             /\ data (snapshot w _ (rows (resourcesQuery (UserProfile.id p))))
                = val (map item cards))
    /\ (studyGroupsTab = EmptyState "No public study groups available"
        \/ exists cards,
             studyGroupsTab = CardGrid cards
             /\ (1 <= length cards <= 3)%nat
             /\ Forall (fun c => key c = StudyGroup.id (item c)) cards
             /\ data (snapshot w _ (rows (studyGroupsQuery (UserProfile.id p))))
                = val (map item cards)).
Proof.
  intros Hs Hr. rewrite (serve_visitor w params p Hs Hr). unfold profileView.
  eexists _, _. split; [reflexivity|]. split.
  - match goal with
    | |- context [@data ?A ?x] =>
        destruct (tab_shape Resource.id (default [] (@data A x))
                    "No public resources available" 3) as [H | H]
    end.
    + intros l Hl.
      assert (Hd : data (snapshot w _ (rows (resourcesQuery (UserProfile.id p))))
                   = val l) by exact (default_data _ l Hl).
      apply (snapshot_rows w (resourcesQuery (UserProfile.id p))) in Hd; [|done].
      subst l.
      exact (select_rows_limit _ (resourcesQuery (UserProfile.id p)) 3 eq_refl).
    + by left.
    + right. destruct H as (cards & Ht & Hlen & Hkey & Hd).
      exists cards. repeat split; try done; try lia.
      exact (default_data _ _ Hd).
  - match goal with
    | |- context [@data ?A ?x] =>
        destruct (tab_shape StudyGroup.id (default [] (@data A x))
                    "No public study groups available" 3) as [H | H]
    end.
    + intros l Hl.
      assert (Hd : data (snapshot w _ (rows (studyGroupsQuery (UserProfile.id p))))
                   = val l) by exact (default_data _ l Hl).
      apply (snapshot_rows w (studyGroupsQuery (UserProfile.id p))) in Hd; [|done].
      subst l.
      exact (select_rows_limit _ (studyGroupsQuery (UserProfile.id p)) 3 eq_refl).
    + by left.
    + right. destruct H as (cards & Ht & Hlen & Hkey & Hd).
      exists cards. repeat split; try done; try lia.
      exact (default_data _ _ Hd).
Qed.

(** X13: the avatar of a rendered profile. The alternative text of the
    image is the heading; the image source is [avatar_url], and it is left
    out when [avatar_url] is empty or absent. *)
Theorem avatar_image (o : Oracle) (params : Params) (p : UserProfile.row) :
  data_session (o _ auth_getSession) = None ->
  resolved o (cleanUsername (username params)) = val p ->
  exists header resourcesTab studyGroupsTab,
    outcome (ask o (UserProfilePage params))
    = Returned (ProfileView header resourcesTab studyGroupsTab)
    /\ avatar_alt header = heading header
    /\ (UserProfile.avatar_url p = None \/ UserProfile.avatar_url p = Some [] ->
        avatar_src header = None)
    /\ (forall c url, UserProfile.avatar_url p = Some (c :: url) ->
        avatar_src header = Some (c :: url)).
Proof.
  intros Hs Hr. rewrite (ask_visitor o params Hs). cbn [outcome]. rewrite Hr.
  eexists _, _, _. split; [reflexivity|].
  unfold ProfileHeader, or_else. cbn [avatar_alt heading avatar_src].
  split; [done|]. split.
  - by intros [-> | ->].
  - by intros c url ->.
Qed.
End Page.

(** * The properties on the sample data

    The two case mappings are instantiated with their ASCII versions, and a
    write with one that would empty the store. *)

Local Abbreviation page := (UserProfilePage ascii_toUpperCase).
Local Abbreviation client := (supabase ascii_lower wipe).
Local Abbreviation answers := (snapshot ascii_lower wipe).
Local Abbreviation served := (serve ascii_toUpperCase ascii_lower wipe).

Lemma cleanUsername_at_prefix_fails :
  cleanUsername (lit "@" ++ lit "@bob") <> cleanUsername (trim (lit "@bob")).
Proof. vm_compute. discriminate. Qed.

Lemma session_redirects_witness :
  data_session (client _ auth_getSession (member campus)).1
  = Some {| access_token := lit "token" |}
  /\ outcome (run client (page {| username := lit "@Alice " |}) (member campus))
     = Redirected (lit "/dashboard/public-profile/@Alice ")
  /\ calls (run client (page {| username := lit "@Alice " |}) (member campus))
     = [CallGetSession].
Proof.
  split; [reflexivity|].
  destruct (session_redirects ascii_toUpperCase client (member campus)
              {| username := lit "@Alice " |} {| access_token := lit "token" |}
              eq_refl) as (Hout & Hcalls & _).
  split; [exact Hout | exact Hcalls].
Defined.

Lemma not_found_stops_witness :
  data_session (answers (visitor campus) _ auth_getSession) = None
  /\ data_single
       (answers (visitor campus) _ (maybeSingle (exactLookup (lit "nobody"))))
     = null
  /\ data_single
       (answers (visitor campus) _ (maybeSingle (fallbackLookup (lit "nobody"))))
     = null
  /\ outcome (ask (answers (visitor campus)) (page {| username := lit "nobody" |}))
     = Returned UserNotFound
  /\ calls (ask (answers (visitor campus)) (page {| username := lit "nobody" |}))
     = [CallGetSession; CallMaybeSingle (exactLookup (lit "nobody"));
        CallMaybeSingle (fallbackLookup (lit "nobody"))].
Proof.
  do 3 (split; [reflexivity|]).
  destruct (not_found_stops ascii_toUpperCase (answers (visitor campus))
              {| username := lit "nobody" |} eq_refl eq_refl eq_refl)
    as (Hout & Hcalls & _).
  split; [exact Hout | exact Hcalls].
Defined.

Lemma resources_tab_rows_witness :
  session (visitor campus) = None
  /\ resolved (answers (visitor campus)) (cleanUsername (lit "@Alice "))
     = val alice
  /\ exists resourcesTab studyGroupsTab,
       outcome (served (visitor campus) {| username := lit "@Alice " |})
       = Returned (ProfileView (ProfileHeader ascii_toUpperCase alice)
                     resourcesTab studyGroupsTab)
       /\ (length (shown resourcesTab) <= 3)%nat
       /\ Forall (fun r => r ∈ tbl_resources campus
                           /\ Resource.author_id r = UserProfile.id alice
                           /\ Resource.is_approved r = true)
            (shown resourcesTab)
       /\ StronglySorted
            (fun a b => (Resource.created_at b <= Resource.created_at a)%Z)
            (shown resourcesTab).
Proof.
  do 2 (split; [reflexivity|]).
  exact (resources_tab_rows ascii_toUpperCase ascii_lower wipe (visitor campus)
           {| username := lit "@Alice " |} alice eq_refl eq_refl).
Defined.

Lemma study_groups_tab_rows_witness :
  session (visitor campus) = None
  /\ resolved (answers (visitor campus)) (cleanUsername (lit "@Alice "))
     = val alice
  /\ exists resourcesTab studyGroupsTab,
       outcome (served (visitor campus) {| username := lit "@Alice " |})
       = Returned (ProfileView (ProfileHeader ascii_toUpperCase alice)
                     resourcesTab studyGroupsTab)
       /\ (length (shown studyGroupsTab) <= 3)%nat
       /\ Forall (fun g => g ∈ tbl_study_groups campus
                           /\ StudyGroup.created_by g = UserProfile.id alice
                           /\ StudyGroup.is_private g = false)
            (shown studyGroupsTab)
       /\ StronglySorted
            (fun a b => (StudyGroup.created_at b <= StudyGroup.created_at a)%Z)
            (shown studyGroupsTab).
Proof.
  do 2 (split; [reflexivity|]).
  exact (study_groups_tab_rows ascii_toUpperCase ascii_lower wipe
           (visitor campus) {| username := lit "@Alice " |} alice
           eq_refl eq_refl).
Defined.

Lemma header_fields_witness :
  data_session (answers (visitor campus) _ auth_getSession) = None
  /\ resolved (answers (visitor campus)) (cleanUsername (lit "janedoe"))
     = val janeDoe
  /\ exists header resourcesTab studyGroupsTab,
       outcome (ask (answers (visitor campus)) (page {| username := lit "janedoe" |}))
       = Returned (ProfileView header resourcesTab studyGroupsTab)
       /\ heading header = Some (lit "JaneDoe")
       /\ avatar_fallback header = lit "JA"
       /\ university_line header = Some (lit "MIT")
       /\ major_line header = None
       /\ bio_line header = None.
Proof.
  do 2 (split; [reflexivity|]).
  destruct (header_fields ascii_toUpperCase (answers (visitor campus))
              {| username := lit "janedoe" |} janeDoe eq_refl eq_refl)
    as (header & resourcesTab & studyGroupsTab & Hout & _ & Hname
        & Huniversity & Hmajor & Hbio).
  exists header, resourcesTab, studyGroupsTab.
  split; [exact Hout|].
  destruct (Hname (or_introl eq_refl)) as [Hheading Hfallback].
  split; [exact Hheading|]. split; [exact Hfallback|].
  split; [apply (proj2 Huniversity); intros [H|H]; discriminate H|].
  split; [apply (proj1 Hmajor); right; reflexivity|].
  apply (proj1 Hbio). left. reflexivity.
Defined.

Lemma handle_shows_stored_username_witness :
  session (visitor campus) = None
  /\ resolved (answers (visitor campus)) (cleanUsername (lit "janedoe"))
     = val janeDoe
  /\ exists header resourcesTab studyGroupsTab,
       outcome (served (visitor campus) {| username := lit "janedoe" |})
       = Returned (ProfileView header resourcesTab studyGroupsTab)
       /\ handle header = lit "@JaneDoe".
Proof.
  do 2 (split; [reflexivity|]).
  destruct (handle_shows_stored_username ascii_toUpperCase ascii_lower wipe
              (visitor campus) {| username := lit "janedoe" |} janeDoe
              eq_refl eq_refl)
    as (header & resourcesTab & studyGroupsTab & stored & Hout & _ & Hu & Hh).
  exists header, resourcesTab, studyGroupsTab.
  split; [exact Hout|]. injection Hu as <-. exact Hh.
Defined.

Lemma lookup_order_witness :
  session (visitor campus) = None
  /\ plain (cleanUsername (lit "janedoe")) = true
  /\ filter (fun r => Is_true (same_exactly (cleanUsername (lit "janedoe")) r))
       (tbl_user_profiles campus) = []
  /\ filter (fun r => Is_true (same_ignoring_case ascii_lower
                                 (cleanUsername (lit "janedoe")) r))
       (tbl_user_profiles campus) = [janeDoe]
  /\ outcome (served (visitor campus) {| username := lit "janedoe" |})
     = Returned
         (profileView ascii_toUpperCase janeDoe
            (answers (visitor campus) _
               (rows (resourcesQuery (UserProfile.id janeDoe))))
            (answers (visitor campus) _
               (rows (studyGroupsQuery (UserProfile.id janeDoe))))).
Proof.
  do 4 (split; [reflexivity|]).
  apply (proj2 (lookup_order ascii_toUpperCase ascii_lower wipe
                  {| username := lit "janedoe" |}) (visitor campus) janeDoe).
  - reflexivity.
  - intros q. reflexivity.
  - right. repeat split; reflexivity.
Defined.

(** Two stored usernames that differ by case only: no username is the key,
    a stored username equals it up to case, and the page is "User Not
    Found". *)
Lemma fallback_misses_among_two :
  ~ (session (visitor two_janes) = None ->
     Forall (fun r => same_exactly (cleanUsername (lit "janedoe")) r = false)
       (tbl_user_profiles two_janes) ->
     Exists (fun r => same_ignoring_case ascii_lower
                        (cleanUsername (lit "janedoe")) r = true)
       (tbl_user_profiles two_janes) ->
     exists p fetched fetched',
       outcome (served (visitor two_janes) {| username := lit "janedoe" |})
       = Returned (profileView ascii_toUpperCase p fetched fetched')).
Proof.
  intros H. destruct H as (p & fetched & fetched' & H).
  - reflexivity.
  - repeat constructor.
  - apply Exists_cons_tl, Exists_cons_hd. reflexivity.
  - vm_compute in H. discriminate H.
Qed.

(** ** The page on the sample data *)

Example cleanUsername_at_alice :
  cleanUsername (lit "@Alice ") = lit "Alice".
Proof. reflexivity. Qed.

Example cleanUsername_inner_at :
  cleanUsername (lit " @bob") = lit "@bob".
Proof. reflexivity. Qed.

(** The scenario of the specification: ["@Alice "] without a session, with
    a stored ["alice"]: the exact lookup of ["Alice"] misses, the fallback
    finds the row, and the heading is the full name. *)
Example at_alice_served :
  exists header resourcesTab studyGroupsTab,
    served (visitor campus) {| username := lit "@Alice " |}
    = {| outcome := Returned (ProfileView header resourcesTab studyGroupsTab);
         final := visitor campus;
         calls := [CallGetSession;
                   CallMaybeSingle (exactLookup (lit "Alice"));
                   CallMaybeSingle (fallbackLookup (lit "Alice"));
                   CallRows (resourcesQuery (lit "u1"));
                   CallRows (studyGroupsQuery (lit "u1"))] |}
    /\ heading header = Some (lit "Alice A")
    /\ handle header = lit "@alice"
    /\ map Resource.id (shown resourcesTab) = [lit "r2"; lit "r6"; lit "r5"]
    /\ map StudyGroup.id (shown studyGroupsTab) = [lit "g4"; lit "g1"].
Proof. eexists _, _, _. repeat split. Qed.

(** A resource fetch that fails renders as one that finds nothing. *)
Example failed_fetch_renders_empty :
  let failing q :=
    match q_table q with resources => Some timeout_error | _ => None end in
  let w := {| database := campus; session := None; outage := failing |} in
  exists header studyGroupsTab,
    outcome (served w {| username := lit "alice" |})
    = Returned (ProfileView header
                  (EmptyState "No public resources available")
                  studyGroupsTab).
Proof. eexists _, _. reflexivity. Qed.

(** The key is sent as an ILIKE pattern: an underscore in it stands for any
    one character. *)
Example ilike_underscore :
  ilike_match ascii_lower (lit "jane_doe") (lit "JaneXDoe") = true
  /\ ilike_match ascii_lower (lit "janedoe") (lit "JaneXDoe") = false.
Proof. split; reflexivity. Qed.

(** ** The further properties on the sample data *)

Lemma same_key_same_page_witness :
  data_session (answers (visitor campus) _ auth_getSession) = None
  /\ cleanUsername (lit "@alice") = cleanUsername (lit " alice ")
  /\ ask (answers (visitor campus)) (page {| username := lit "@alice" |})
     = ask (answers (visitor campus)) (page {| username := lit " alice " |}).
Proof.
  do 2 (split; [reflexivity|]).
  exact (same_key_same_page ascii_toUpperCase (answers (visitor campus))
           (lit "@alice") (lit " alice ") eq_refl eq_refl).
Defined.

Lemma blank_username_not_found_witness :
  Forall (fun c => isWhiteSpace c = true) (lit "  ")
  /\ session (visitor campus) = None
  /\ filter (fun r => Is_true (same_exactly [] r)) (tbl_user_profiles campus) = []
  /\ cleanUsername (lit "@  ") = []
  /\ outcome (served (visitor campus) {| username := lit "@  " |})
     = Returned UserNotFound
  /\ calls (served (visitor campus) {| username := lit "@  " |})
     = [CallGetSession; CallMaybeSingle (exactLookup []);
        CallMaybeSingle (fallbackLookup [])].
Proof.
  split; [repeat constructor|]. do 2 (split; [reflexivity|]).
  apply (blank_username_not_found ascii_toUpperCase ascii_lower wipe
           (visitor campus) (lit "  ") (lit "@  ")).
  - repeat constructor.
  - right. reflexivity.
  - reflexivity.
  - reflexivity.
Defined.

Lemma rendered_row_matches_key_witness :
  session (visitor campus) = None
  /\ plain (cleanUsername (lit "janedoe")) = true
  /\ (outcome (served (visitor campus) {| username := lit "janedoe" |})
      = Returned UserNotFound
      \/ exists p resourcesTab studyGroupsTab,
           p ∈ tbl_user_profiles campus
           /\ same_ignoring_case ascii_lower (cleanUsername (lit "janedoe")) p
              = true
           /\ outcome (served (visitor campus) {| username := lit "janedoe" |})
              = Returned (ProfileView (ProfileHeader ascii_toUpperCase p)
                            resourcesTab studyGroupsTab)).
Proof.
  do 2 (split; [reflexivity|]).
  exact (rendered_row_matches_key ascii_toUpperCase ascii_lower wipe
           (visitor campus) {| username := lit "janedoe" |} eq_refl eq_refl).
Defined.

Lemma ambiguous_key_not_found_witness :
  session (visitor two_janes) = None
  /\ plain (cleanUsername (lit "janedoe")) = true
  /\ length (filter (fun r => Is_true (same_exactly (cleanUsername (lit "janedoe")) r))
               (tbl_user_profiles two_janes)) = 0%nat
  /\ length (filter (fun r => Is_true (same_ignoring_case ascii_lower
                                         (cleanUsername (lit "janedoe")) r))
               (tbl_user_profiles two_janes)) = 2%nat
  /\ outcome (served (visitor two_janes) {| username := lit "janedoe" |})
     = Returned UserNotFound.
Proof.
  do 4 (split; [reflexivity|]).
  apply (ambiguous_key_not_found ascii_toUpperCase ascii_lower wipe
           (visitor two_janes) {| username := lit "janedoe" |}).
  - reflexivity.
  - reflexivity.
  - vm_compute. discriminate.
  - vm_compute. lia.
Defined.



Lemma newest_resources_shown_witness :
  session (visitor campus) = None
  /\ resolved (answers (visitor campus)) (cleanUsername (lit "@Alice "))
     = val alice
  /\ outage (visitor campus) (resourcesQuery (UserProfile.id alice)) = None
  /\ exists resourcesTab studyGroupsTab,
       outcome (served (visitor campus) {| username := lit "@Alice " |})
       = Returned (ProfileView (ProfileHeader ascii_toUpperCase alice)
                     resourcesTab studyGroupsTab)
       /\ forall r,
            r ∈ tbl_resources campus ->
            Resource.author_id r = UserProfile.id alice ->
            Resource.is_approved r = true ->
            r ∈ shown resourcesTab
            \/ (length (shown resourcesTab) = 3%nat
                /\ Forall (fun s => (Resource.created_at r
                                     <= Resource.created_at s)%Z)
                     (shown resourcesTab)).
Proof.
  do 3 (split; [reflexivity|]).
  exact (newest_resources_shown ascii_toUpperCase ascii_lower wipe
           (visitor campus) {| username := lit "@Alice " |} alice
           eq_refl eq_refl eq_refl).
Defined.

Lemma newest_study_groups_shown_witness :
  session (visitor campus) = None
  /\ resolved (answers (visitor campus)) (cleanUsername (lit "@Alice "))
     = val alice
  /\ outage (visitor campus) (studyGroupsQuery (UserProfile.id alice)) = None
  /\ exists resourcesTab studyGroupsTab,
       outcome (served (visitor campus) {| username := lit "@Alice " |})
       = Returned (ProfileView (ProfileHeader ascii_toUpperCase alice)
                     resourcesTab studyGroupsTab)
       /\ forall g,
            g ∈ tbl_study_groups campus ->
            StudyGroup.created_by g = UserProfile.id alice ->
            StudyGroup.is_private g = false ->
            g ∈ shown studyGroupsTab
            \/ (length (shown studyGroupsTab) = 3%nat
                /\ Forall (fun s => (StudyGroup.created_at g
                                     <= StudyGroup.created_at s)%Z)
                     (shown studyGroupsTab)).
Proof.
  do 3 (split; [reflexivity|]).
  exact (newest_study_groups_shown ascii_toUpperCase ascii_lower wipe
           (visitor campus) {| username := lit "@Alice " |} alice
           eq_refl eq_refl eq_refl).
Defined.

Lemma tabs_are_messages_or_cards_witness :
  session (visitor campus) = None
  /\ resolved (answers (visitor campus)) (cleanUsername (lit "@Alice "))
     = val alice
  /\ exists resourcesTab studyGroupsTab,
       outcome (served (visitor campus) {| username := lit "@Alice " |})
       = Returned (ProfileView (ProfileHeader ascii_toUpperCase alice)
                     resourcesTab studyGroupsTab)
       /\ (resourcesTab = EmptyState "No public resources available"
           \/ exists cards,
                resourcesTab = CardGrid cards
                /\ (1 <= length cards <= 3)%nat
                /\ Forall (fun c => key c = Resource.id (item c)) cards
                /\ data (answers (visitor campus) _
                           (rows (resourcesQuery (UserProfile.id alice))))
                   = val (map item cards))
       /\ (studyGroupsTab = EmptyState "No public study groups available"
           \/ exists cards,
                studyGroupsTab = CardGrid cards
                /\ (1 <= length cards <= 3)%nat
                /\ Forall (fun c => key c = StudyGroup.id (item c)) cards
                /\ data (answers (visitor campus) _
                           (rows (studyGroupsQuery (UserProfile.id alice))))
                   = val (map item cards)).
Proof.
  do 2 (split; [reflexivity|]).
  exact (tabs_are_messages_or_cards ascii_toUpperCase ascii_lower wipe
           (visitor campus) {| username := lit "@Alice " |} alice
           eq_refl eq_refl).
Defined.

Lemma avatar_image_witness :
  data_session (answers (visitor campus) _ auth_getSession) = None
  /\ resolved (answers (visitor campus)) (cleanUsername (lit "janedoe"))
     = val janeDoe
  /\ exists header resourcesTab studyGroupsTab,
       outcome (ask (answers (visitor campus)) (page {| username := lit "janedoe" |}))
       = Returned (ProfileView header resourcesTab studyGroupsTab)
       /\ avatar_alt header = heading header
       /\ avatar_src header = None.
Proof.
  do 2 (split; [reflexivity|]).
  destruct (avatar_image ascii_toUpperCase (answers (visitor campus))
              {| username := lit "janedoe" |} janeDoe eq_refl eq_refl)
    as (header & resourcesTab & studyGroupsTab & Hout & Halt & Hnone & _).
  exists header, resourcesTab, studyGroupsTab.
  split; [exact Hout|]. split; [exact Halt|].
  apply Hnone. left. reflexivity.
Defined.
